(** * Replicator runner: the cluster- and job-scaling passes

    A shallow embedding of [replicator/runner.go]: the scaling state, the
    configuration the passes read and write, the calls to the Nomad, Consul
    and AWS clients, and the two passes [clusterScaling] and [jobScaling]
    with the ticker loop that drives them. *)

From Stdlib Require Import ZArith List String Bool Lia.
Import ListNotations.
Open Scope Z_scope.

(** ** Go's [int] *)

(** [int] is taken at its 64-bit width: arithmetic wraps around. *)
Definition int_min : Z := - 2 ^ 63.
Definition int_max : Z := 2 ^ 63 - 1.

Definition wrap (z : Z) : Z := (z + 2 ^ 63) mod 2 ^ 64 - 2 ^ 63.

(** [n++] *)
Definition incr (n : Z) : Z := wrap (n + 1).

(** ** Time *)

(** A [time.Time] is the number of nanoseconds since the zero instant, so
    [IsZero] is a comparison with 0; a [time.Duration] is an [int64] count of
    nanoseconds. *)
Definition Time := Z.

Definition IsZero (t : Time) : bool := t =? 0.
Definition Add (t : Time) (d : Z) : Time := t + d.
Definition Before (t u : Time) : bool := t <? u.

Definition Second : Z := 1000000000.

(** ** structs *)

(** Modelled from the spec: the scaling directions [client.ScalingDirectionOut],
    [client.ScalingDirectionIn] and [client.ScalingDirectionNone], which the
    client package declares. *)
Inductive ScalingDirection := ScalingDirectionOut | ScalingDirectionIn | ScalingDirectionNone.

Definition direction_eqb (a b : ScalingDirection) : bool :=
  match a, b with
  | ScalingDirectionOut, ScalingDirectionOut
  | ScalingDirectionIn, ScalingDirectionIn
  | ScalingDirectionNone, ScalingDirectionNone => true
  | _, _ => false
  end.

(** Modelled from the spec: [structs.ScalingState], the failure counter and
    the instant of the last scaling event. *)
Record ScalingState := mkScalingState {
  NodeFailureCount : Z;
  LastScalingEvent : Time
}.

(** Modelled from the spec: [structs.ClusterCapacity], of which the runner
    reads the scaling direction only. *)
Record ClusterCapacity := mkClusterCapacity {
  ScalingDirection_ : ScalingDirection
}.

Module ClusterScaling.
(** Modelled from the spec: the cluster scaling section of [structs.Config]. *)
Record t := mk {
  Enabled : bool;
  CoolDown : Z;
  RetryThreshold : Z;
  AutoscalingGroup : string
}.
End ClusterScaling.

Module JobScaling.
(** Modelled from the spec: the job scaling section of [structs.Config]. *)
Record t := mk {
  Enabled : bool
}.
End JobScaling.

(** Modelled from the spec: [structs.Config] without its client handles,
    whose answers are the [World] below. *)
Record Config := mkConfig {
  ScalingInterval : Z;
  Region : string;
  ClusterScaling_ : ClusterScaling.t;
  JobScaling_ : JobScaling.t
}.

Module Scaling.
(** Modelled from the spec: the scaling verdict of one group. *)
Record t := mk {
  ScaleDirection : ScalingDirection
}.
End Scaling.

(** Modelled from the spec: [structs.GroupScalingPolicy]. *)
Record GroupScalingPolicy := mkGroupScalingPolicy {
  GroupName : string;
  Scaling_ : Scaling.t
}.

Module JobScalingPolicy.
(** Modelled from the spec: [structs.JobScalingPolicy]. *)
Record t := mk {
  JobName : string;
  Enabled : bool;
  GroupScalingPolicies : list GroupScalingPolicy
}.
End JobScalingPolicy.

(** A Go [error]: [None] is [nil]. *)
Definition error := option string.

Definition is_nil (e : error) : bool :=
  match e with None => true | Some _ => false end.

(** The client that [client.NewAWSAsgService] builds, named by its region. *)
Definition Session := string.

(** ** What a pass does to the outside

    Every call that leaves the runner is recorded with its arguments and with
    the answer it got, in the order of execution. *)

Inductive Metric := scale_out_success | scale_out_failed.

(** The log lines of the runner, by the line of [runner.go] that writes them. *)
Inductive LogMsg :=
| DebugNotLeaderCluster
| DebugNoScaling
| InfoCooldownNotReached (cooldown : Time)
| DebugCooldownReached (cooldown : Time)
| InfoNoPreviousScaling
| DebugScaleOutDisabled
| ErrorScaleOut (asg : string) (err : string)
| InfoRetryLaunch (failures : Z)
| ErrorIdentify (err : string)
| ErrorNodeJoin (node : string) (failures : Z)
| ErrorDetach (err : string)
| ErrorTerminate (instanceID : string) (err : string)
| DebugScaleInDisabled
| InfoTerminating (nodeIP : string)
| ErrorScaleIn (nodeID : string) (err : string)
| ErrorRetryThreshold (threshold : Z)
| DebugNotLeaderJob
| ErrorPolicies (err : string)
| DebugJobScalingRequested (job : string) (dir : ScalingDirection) (group : string)
| DebugJobScalingDisabled (dir : ScalingDirection) (job : string) (group : string).

Inductive Event :=
| ELeaderCheck (haveLeadership : bool)
| EDescribeAWSRegion (region : string) (err : error)
| EEvaluateClusterCapacity (capacity : ClusterCapacity) (scale : bool) (err : error)
| ENewAWSAsgService (region : string)
| ENow (t : Time)
| EScaleOutCluster (asg : string) (sess : Session) (err : error)
| EGetMostRecentInstance (asg region : string) (node : string) (err : error)
| EVerifyNodeHealth (node : string) (healthy : bool)
| EIncrCounter (name : Metric)
| ETranslateIptoID (node region : string) (instanceID : string)
| EDetachInstance (asg instanceID : string) (sess : Session) (err : error)
| ETerminateInstance (instanceID region : string) (err : error)
| ELeastAllocatedNode (capacity : ClusterCapacity) (nodeID nodeIP : string)
| EDrainNode (nodeID : string) (err : error)
| EScaleInCluster (asg nodeIP : string) (sess : Session) (err : error)
| EGetJobScalingPolicies (resp : list JobScalingPolicy.t) (err : error)
| EEvaluateJobScaling (resp : list JobScalingPolicy.t)
| EJobScale (job : JobScalingPolicy.t)
| ELog (msg : LogMsg)
| EDone.

(** The calls that change something at a collaborator: the autoscaling group,
    an instance, a node or a job. *)
Definition mutating (e : Event) : bool :=
  match e with
  | EScaleOutCluster _ _ _ | EDetachInstance _ _ _ _ | ETerminateInstance _ _ _
  | EDrainNode _ _ | EScaleInCluster _ _ _ _ | EJobScale _ => true
  | _ => false
  end.

(** ** The collaborators

    The answer of a collaborator may depend on everything that happened in
    the pass before the call, and on the arguments of the call. *)
Record World := mkWorld {
  LeaderCheck : list Event -> bool;
  DescribeAWSRegion : list Event -> string * error;
  EvaluateClusterCapacity : list Event -> Config -> ClusterCapacity * bool * error;
  Now : list Event -> Time;
  ScaleOutCluster : list Event -> string -> Session -> error;
  GetMostRecentInstance : list Event -> string -> string -> string * error;
  VerifyNodeHealth : list Event -> string -> bool;
  TranslateIptoID : list Event -> string -> string -> string;
  DetachInstance : list Event -> string -> string -> Session -> error;
  TerminateInstance : list Event -> string -> string -> error;
  LeastAllocatedNode : list Event -> ClusterCapacity -> string * string;
  DrainNode : list Event -> string -> error;
  ScaleInCluster : list Event -> string -> string -> Session -> error;
  GetJobScalingPolicies : list Event -> Config -> list JobScalingPolicy.t * error;
  EvaluateJobScaling : list Event -> list JobScalingPolicy.t -> list JobScalingPolicy.t
}.

(** ** The monad of a pass

    A pass reads and writes the configuration and the scaling state behind
    their pointers, appends to the trace, and may leave through a [return]
    statement before its end. *)

Inductive ReturnSite :=
| NotLeader           (* runner.go:75 *)
| CooldownActive      (* runner.go:107 *)
| ScaleOutDisabled    (* runner.go:125 *)
| ScaleOutFailed      (* runner.go:135 *)
| NodeHealthy         (* runner.go:174 *)
| SelfDisabled        (* runner.go:204 *)
| ScaleInDisabled     (* runner.go:222 *)
| EndOfPass           (* runner.go:241 *)
| JobNotLeader        (* runner.go:271 *)
| JobPoliciesFailed   (* runner.go:279 *)
| EndOfJobPass.       (* runner.go:313 *)

Record Mem := mkMem {
  config : Config;
  scalingState : ScalingState;
  trace : list Event
}.

Inductive Flow (A : Type) :=
| Normal (a : A)
| Return (site : ReturnSite).
Arguments Normal {A} a.
Arguments Return {A} site.

(** [None] is a loop that was cut off. *)
Definition M (A : Type) := Mem -> option (Flow A * Mem).

Definition ret {A} (a : A) : M A := fun m => Some (Normal a, m).

Definition bind {A B} (c : M A) (k : A -> M B) : M B := fun m =>
  match c m with
  | None => None
  | Some (Normal a, m') => k a m'
  | Some (Return s, m') => Some (Return s, m')
  end.

Definition return_ {A} (s : ReturnSite) : M A := fun m => Some (Return s, m).

Declare Scope pass_scope.
Delimit Scope pass_scope with pass.
Notation "x <- c1 ;; c2" := (bind c1 (fun x => c2))
  (at level 61, c1 at next level, right associativity) : pass_scope.
Notation "c1 ;; c2" := (bind c1 (fun _ => c2))
  (at level 61, right associativity) : pass_scope.
Open Scope pass_scope.

Definition emit (e : Event) : M unit := fun m =>
  Some (Normal tt, mkMem (config m) (scalingState m) (trace m ++ [e])).

Definition call {R} (answer : list Event -> R) (ev : R -> Event) : M R := fun m =>
  let r := answer (trace m) in
  Some (Normal r, mkMem (config m) (scalingState m) (trace m ++ [ev r])).

Definition log (msg : LogMsg) : M unit := emit (ELog msg).

Definition getConfig : M Config := fun m => Some (Normal (config m), m).
Definition getState : M ScalingState := fun m => Some (Normal (scalingState m), m).

(** A write through the [r.config] or the [scalingState] pointer. *)
Definition modifyConfig (f : Config -> Config) : M unit := fun m =>
  Some (Normal tt, mkMem (f (config m)) (scalingState m) (trace m)).
Definition modifyState (f : ScalingState -> ScalingState) : M unit := fun m =>
  Some (Normal tt, mkMem (config m) (f (scalingState m)) (trace m)).

Definition with_Region (region : string) (c : Config) : Config :=
  mkConfig (ScalingInterval c) region (ClusterScaling_ c) (JobScaling_ c).

Definition with_Enabled (b : bool) (c : Config) : Config :=
  let cs := ClusterScaling_ c in
  mkConfig (ScalingInterval c) (Region c)
    (ClusterScaling.mk b (ClusterScaling.CoolDown cs)
       (ClusterScaling.RetryThreshold cs) (ClusterScaling.AutoscalingGroup cs))
    (JobScaling_ c).

Definition with_NodeFailureCount (n : Z) (s : ScalingState) : ScalingState :=
  mkScalingState n (LastScalingEvent s).

(** [scalingState.NodeFailureCount++] *)
Definition incrNodeFailureCount (s : ScalingState) : ScalingState :=
  with_NodeFailureCount (incr (NodeFailureCount s)) s.

Definition with_LastScalingEvent (t : Time) (s : ScalingState) : ScalingState :=
  mkScalingState (NodeFailureCount s) t.

Definition logError (mk : string -> LogMsg) (err : error) : M unit :=
  match err with
  | Some e => log (mk e)
  | None => ret tt
  end.

(** ** The cluster scaling pass *)

Section Passes.

Variable w : World.

Definition asg (c : Config) : string :=
  ClusterScaling.AutoscalingGroup (ClusterScaling_ c).

(** [time.Now()] *)
Definition timeNow : M Time := call (Now w) ENow.

(** [time.Duration(r.config.ClusterScaling.CoolDown) * time.Second] *)
Definition coolDownDuration (c : Config) : Z :=
  wrap (ClusterScaling.CoolDown (ClusterScaling_ c) * Second).

(** runner.go:98, the end of the cooldown window. *)
Definition cooldownDeadline (c : Config) (s : ScalingState) : Time :=
  Add (LastScalingEvent s) (coolDownDuration c).

(** runner.go:244-257 *)
Definition disableClusterScaling : M bool :=
  s <- getState ;;
  c <- getConfig ;;
  if NodeFailureCount s =? ClusterScaling.RetryThreshold (ClusterScaling_ c) then
    modifyConfig (with_Enabled false) ;;
    c <- getConfig ;;
    log (ErrorRetryThreshold (ClusterScaling.RetryThreshold (ClusterScaling_ c))) ;;
    ret true
  else ret false.

(** runner.go:144-211, one turn of the retry loop.  The [continue] of line 160
    is the end of the first branch. *)
Definition retryAttempt (asgSess : Session) : M unit :=
  s <- getState ;;
  (if 0 <? NodeFailureCount s
   then log (InfoRetryLaunch (NodeFailureCount s)) else ret tt) ;;
  c <- getConfig ;;
  r <- call (fun h => GetMostRecentInstance w h (asg c) (Region c))
            (fun r => EGetMostRecentInstance (asg c) (Region c) (fst r) (snd r)) ;;
  match r with
  | (_, Some err) =>
      log (ErrorIdentify err) ;;
      modifyState incrNodeFailureCount
  | (newestNode, None) =>
      healthy <- call (fun h => VerifyNodeHealth w h newestNode)
                      (EVerifyNodeHealth newestNode) ;;
      if healthy then
        modifyState (with_NodeFailureCount 0) ;;
        now <- timeNow ;;
        modifyState (with_LastScalingEvent now) ;;
        emit EDone ;;
        return_ NodeHealthy
      else
        modifyState incrNodeFailureCount ;;
        s <- getState ;;
        log (ErrorNodeJoin newestNode (NodeFailureCount s)) ;;
        emit (EIncrCounter scale_out_failed) ;;
        c <- getConfig ;;
        instanceID <- call (fun h => TranslateIptoID w h newestNode (Region c))
                           (ETranslateIptoID newestNode (Region c)) ;;
        disabled <- disableClusterScaling ;;
        if disabled then
          c <- getConfig ;;
          err <- call (fun h => DetachInstance w h (asg c) instanceID asgSess)
                      (EDetachInstance (asg c) instanceID asgSess) ;;
          logError ErrorDetach err ;;
          emit EDone ;;
          return_ SelfDisabled
        else
          c <- getConfig ;;
          err <- call (fun h => TerminateInstance w h instanceID (Region c))
                      (ETerminateInstance instanceID (Region c)) ;;
          logError (ErrorTerminate instanceID) err
  end.

(** runner.go:143, [for NodeFailureCount <= RetryThreshold].  The loop is cut
    off after [fuel] turns. *)
Fixpoint retryLoop (fuel : nat) (asgSess : Session) : M unit := fun m =>
  if NodeFailureCount (scalingState m)
     <=? ClusterScaling.RetryThreshold (ClusterScaling_ (config m))
  then
    match fuel with
    | O => None
    | S fuel' => (retryAttempt asgSess ;; retryLoop fuel' asgSess) m
    end
  else Some (Normal tt, m).

(** runner.go:97-115 *)
Definition cooldownGate : M unit :=
  s <- getState ;;
  if negb (IsZero (LastScalingEvent s)) then
    c <- getConfig ;;
    let cooldown := cooldownDeadline c s in
    now <- timeNow ;;
    if Before now cooldown then
      log (InfoCooldownNotReached cooldown) ;;
      emit EDone ;;
      return_ CooldownActive
    else log (DebugCooldownReached cooldown)
  else log InfoNoPreviousScaling.

(** runner.go:120-136, up to the retry loop. *)
Definition requestScaleOut (scalingEnabled : bool) (asgSess : Session) : M unit :=
  (if negb scalingEnabled then
     log DebugScaleOutDisabled ;;
     emit EDone ;;
     return_ ScaleOutDisabled
   else ret tt) ;;
  c <- getConfig ;;
  err <- call (fun h => ScaleOutCluster w h (asg c) asgSess)
              (EScaleOutCluster (asg c) asgSess) ;;
  match err with
  | Some e =>
      c <- getConfig ;;
      log (ErrorScaleOut (asg c) e) ;;
      emit EDone ;;
      return_ ScaleOutFailed
  | None => ret tt
  end.

(** runner.go:117-213 *)
Definition scaleOut (fuel : nat) (scalingEnabled : bool) (asgSess : Session) : M unit :=
  requestScaleOut scalingEnabled asgSess ;;
  retryLoop fuel asgSess.

(** runner.go:215-237 *)
Definition scaleIn (scalingEnabled : bool) (clusterCapacity : ClusterCapacity)
    (asgSess : Session) : M unit :=
  r <- call (fun h => LeastAllocatedNode w h clusterCapacity)
            (fun r => ELeastAllocatedNode clusterCapacity (fst r) (snd r)) ;;
  let '(nodeID, nodeIP) := r in
  if negb (nodeIP =? "")%string && negb (nodeID =? "")%string then
    (if negb scalingEnabled then
       log DebugScaleInDisabled ;;
       emit EDone ;;
       return_ ScaleInDisabled
     else ret tt) ;;
    err <- call (fun h => DrainNode w h nodeID) (EDrainNode nodeID) ;;
    if is_nil err then
      log (InfoTerminating nodeIP) ;;
      c <- getConfig ;;
      err <- call (fun h => ScaleInCluster w h (asg c) nodeIP asgSess)
                  (EScaleInCluster (asg c) nodeIP asgSess) ;;
      match err with
      | Some e => log (ErrorScaleIn nodeID e)
      | None =>
          now <- timeNow ;;
          modifyState (with_LastScalingEvent now)
      end
    else ret tt
  else ret tt.

(** runner.go:71-89, from the leadership check to the capacity evaluation. *)
Definition evaluate : M (ClusterCapacity * bool * error) :=
  haveLeadership <- call (LeaderCheck w) ELeaderCheck ;;
  (if negb haveLeadership then
     log DebugNotLeaderCluster ;;
     emit EDone ;;
     return_ NotLeader
   else ret tt) ;;
  c <- getConfig ;;
  (if (Region c =? "")%string then
     r <- call (DescribeAWSRegion w) (fun r => EDescribeAWSRegion (fst r) (snd r)) ;;
     match r with
     | (region, None) => modifyConfig (with_Region region)
     | (_, Some _) => ret tt
     end
   else ret tt) ;;
  c <- getConfig ;;
  call (fun h => EvaluateClusterCapacity w h c)
       (fun r => EEvaluateClusterCapacity (fst (fst r)) (snd (fst r)) (snd r)).

(** runner.go:94-115, the AWS client and the cooldown gate. *)
Definition prepare : M Session :=
  c <- getConfig ;;
  asgSess <- call (fun _ => Region c) ENewAWSAsgService ;;
  cooldownGate ;;
  ret asgSess.

(** runner.go:65-242 *)
Definition clusterScaling (fuel : nat) : M unit :=
  c <- getConfig ;;
  let scalingEnabled := ClusterScaling.Enabled (ClusterScaling_ c) in
  r <- evaluate ;;
  let '(clusterCapacity, scale, err) := r in
  (if negb (is_nil err) || negb scale then
     log DebugNoScaling
   else
     asgSess <- prepare ;;
     (if direction_eqb (ScalingDirection_ clusterCapacity) ScalingDirectionOut
      then scaleOut fuel scalingEnabled asgSess else ret tt) ;;
     (if direction_eqb (ScalingDirection_ clusterCapacity) ScalingDirectionIn
      then scaleIn scalingEnabled clusterCapacity asgSess else ret tt)) ;;
  emit EDone ;;
  emit (EIncrCounter scale_out_success) ;;
  return_ EndOfPass.

(** ** The job scaling pass *)

Definition needsScaling (group : GroupScalingPolicy) : bool :=
  direction_eqb (Scaling.ScaleDirection (Scaling_ group)) ScalingDirectionOut
  || direction_eqb (Scaling.ScaleDirection (Scaling_ group)) ScalingDirectionIn.

(** runner.go:293-304, the groups of one job; [i] counts those to scale. *)
Fixpoint countGroups (job : JobScalingPolicy.t) (groups : list GroupScalingPolicy)
    (i : Z) : M Z :=
  match groups with
  | [] => ret i
  | group :: rest =>
      if needsScaling group then
        c <- getConfig ;;
        if JobScalingPolicy.Enabled job && JobScaling.Enabled (JobScaling_ c) then
          log (DebugJobScalingRequested (JobScalingPolicy.JobName job)
                 (Scaling.ScaleDirection (Scaling_ group)) (GroupName group)) ;;
          countGroups job rest (i + 1)
        else
          log (DebugJobScalingDisabled (Scaling.ScaleDirection (Scaling_ group))
                 (JobScalingPolicy.JobName job) (GroupName group)) ;;
          countGroups job rest i
      else countGroups job rest i
  end.

(** runner.go:287-311, one job. *)
Definition scaleJob (job : JobScalingPolicy.t) : M unit :=
  i <- countGroups job (JobScalingPolicy.GroupScalingPolicies job) 0 ;;
  if 0 <? i then emit (EJobScale job) else ret tt.

(** runner.go:286, [for _, job := range resp]. *)
Fixpoint scaleJobs (resp : list JobScalingPolicy.t) : M unit :=
  match resp with
  | [] => ret tt
  | job :: rest => scaleJob job ;; scaleJobs rest
  end.

(** runner.go:261-313 *)
Definition jobScaling : M unit :=
  haveLeadership <- call (LeaderCheck w) ELeaderCheck ;;
  (if negb haveLeadership then
     log DebugNotLeaderJob ;;
     return_ JobNotLeader
   else ret tt) ;;
  c <- getConfig ;;
  r <- call (fun h => GetJobScalingPolicies w h c)
            (fun r => EGetJobScalingPolicies (fst r) (snd r)) ;;
  match r with
  | (_, Some err) =>
      log (ErrorPolicies err) ;;
      return_ JobPoliciesFailed
  | (resp, None) =>
      resp <- call (fun h => EvaluateJobScaling w h resp) EEvaluateJobScaling ;;
      scaleJobs resp ;;
      return_ EndOfJobPass
  end.

End Passes.

(** ** The runner *)

(** What a pass leaves behind, whatever [return] it took. *)
Definition pass (c : M unit) (m : Mem) : option Mem :=
  match c m with
  | Some (_, m') => Some m'
  | None => None
  end.

(** runner.go:43-49, one tick of the ticker: the cluster pass runs to its
    [done] signal, then the job pass runs. *)
Definition tick (w : World) (fuel : nat) (m : Mem) : option Mem :=
  match pass (clusterScaling w fuel) m with
  | Some m1 => pass (jobScaling w) m1
  | None => None
  end.

Fixpoint ticks (w : World) (fuel : nat) (n : nat) (m : Mem) : option Mem :=
  match n with
  | O => Some m
  | S n' =>
      match tick w fuel m with
      | Some m' => ticks w fuel n' m'
      | None => None
      end
  end.


(** ** Reading a run *)

Definition threshold (m : Mem) : Z :=
  ClusterScaling.RetryThreshold (ClusterScaling_ (config m)).
Definition failures (m : Mem) : Z := NodeFailureCount (scalingState m).
Definition lastEvent (m : Mem) : Time := LastScalingEvent (scalingState m).
Definition enabled (m : Mem) : bool := ClusterScaling.Enabled (ClusterScaling_ (config m)).

Definition isDone (e : Event) : bool :=
  match e with EDone => true | _ => false end.

(** How often the pass signalled on its [done] channel. *)
Definition dones (evs : list Event) : nat := List.length (filter isDone evs).

Definition isSuccessCounter (e : Event) : bool :=
  match e with EIncrCounter scale_out_success => true | _ => false end.

(** How often the [cluster.scale_out_success] counter was incremented. *)
Definition successes (evs : list Event) : nat :=
  List.length (filter isSuccessCounter evs).

Definition isVerifyNodeHealth (e : Event) : bool :=
  match e with EVerifyNodeHealth _ _ => true | _ => false end.

(** The instance attempts of a pass: a node was identified and its health
    was checked. *)
Definition attempts (evs : list Event) : nat :=
  List.length (filter isVerifyNodeHealth evs).

(** The calls that take an instance out of the autoscaling group. *)
Definition removesInstance (e : Event) : bool :=
  match e with
  | ETerminateInstance _ _ _ | EScaleInCluster _ _ _ _ | EDetachInstance _ _ _ _ => true
  | _ => false
  end.

(** The events that the retry loop can add to the trace. *)
Definition loopEvent (e : Event) : bool :=
  match e with
  | ELog _ | EGetMostRecentInstance _ _ _ _ | EVerifyNodeHealth _ _ | ENow _
  | EIncrCounter scale_out_failed | ETranslateIptoID _ _ _
  | EDetachInstance _ _ _ _ | ETerminateInstance _ _ _ | EDone => true
  | _ => false
  end.

Definition isHealthyCheck (e : Event) : bool :=
  match e with EVerifyNodeHealth _ true => true | _ => false end.

Definition isEndOfPass (site : ReturnSite) : bool :=
  match site with EndOfPass => true | _ => false end.

(** The three ways out of the retry loop: the loop condition fails, a node
    is healthy, or cluster scaling disables itself. *)
Definition loop_post (m : Mem) (r : Flow unit) (m' : Mem) (evs : list Event) : Prop :=
  trace m' = trace m ++ evs /\ Forall (fun e => loopEvent e = true) evs /\
  match r with
  | Normal _ =>
      config m' = config m /\ lastEvent m' = lastEvent m
      /\ threshold m < failures m' /\ dones evs = 0%nat
      /\ existsb isHealthyCheck evs = false
  | Return NodeHealthy =>
      config m' = config m /\ failures m' = 0 /\ dones evs = 1%nat
      /\ existsb isHealthyCheck evs = true
  | Return SelfDisabled =>
      config m' = with_Enabled false (config m) /\ lastEvent m' = lastEvent m
      /\ failures m' = threshold m /\ dones evs = 1%nat
      /\ existsb isHealthyCheck evs = false
  | Return _ => False
  end.

(** The pass started in [m] arrives at its retry loop in [m1]: it passed the
    leadership check, the evaluation asked for a scale-out, the cooldown gate
    was open and the autoscaling group took the request. *)
Definition entersRetryLoop (w : World) (m m1 : Mem) : Prop :=
  exists clusterCapacity ma asgSess mb,
    evaluate w m = Some (Normal (clusterCapacity, true, None), ma)
    /\ prepare w ma = Some (Normal asgSess, mb)
    /\ ScalingDirection_ clusterCapacity = ScalingDirectionOut
    /\ requestScaleOut w (enabled m) asgSess mb = Some (Normal tt, m1).

(** A job is submitted when a group of it is to be scaled and job scaling is
    on for the job and in the configuration. *)
Definition eligible (c : Config) (job : JobScalingPolicy.t) : bool :=
  existsb needsScaling (JobScalingPolicy.GroupScalingPolicies job)
  && (JobScalingPolicy.Enabled job && JobScaling.Enabled (JobScaling_ c)).

(** The jobs handed to [JobScale], in order. *)
Fixpoint jobScaleCalls (evs : list Event) : list JobScalingPolicy.t :=
  match evs with
  | [] => []
  | EJobScale job :: rest => job :: jobScaleCalls rest
  | _ :: rest => jobScaleCalls rest
  end.

(** The direction that the capacity evaluation of the pass asked for. *)
Fixpoint askedDirection (evs : list Event) : option ScalingDirection :=
  match evs with
  | [] => None
  | EEvaluateClusterCapacity capacity _ _ :: _ => Some (ScalingDirection_ capacity)
  | _ :: rest => askedDirection rest
  end.

(** No instance is removed before a node was drained without error;
    [drained] tells whether that has happened already. *)
Fixpoint drainsFirst (drained : bool) (evs : list Event) : bool :=
  match evs with
  | [] => true
  | EDrainNode _ None :: rest => drainsFirst true rest
  | e :: rest => (negb (removesInstance e) || drained) && drainsFirst drained rest
  end.

Definition isTerminate (e : Event) : bool :=
  match e with ETerminateInstance _ _ _ => true | _ => false end.

Definition isDetach (e : Event) : bool :=
  match e with EDetachInstance _ _ _ _ => true | _ => false end.


(** [entersRetryLoop] as a function: the memory in which the pass started in
    [m] arrives at its retry loop, if it does. *)
Definition retryLoopEntry (w : World) (m : Mem) : option Mem :=
  match evaluate w m with
  | Some (Normal (clusterCapacity, true, None), ma) =>
      match prepare w ma with
      | Some (Normal asgSess, mb) =>
          match ScalingDirection_ clusterCapacity with
          | ScalingDirectionOut =>
              match requestScaleOut w (enabled m) asgSess mb with
              | Some (Normal _, m1) => Some m1
              | _ => None
              end
          | _ => None
          end
      | _ => None
      end
  | _ => None
  end.

(** ** Counting calls *)

(** How often an event of the kind [p] occurs. *)
Definition occurrences (p : Event -> bool) (evs : list Event) : nat :=
  List.length (filter p evs).

Definition isFailedCheck (e : Event) : bool :=
  match e with EVerifyNodeHealth _ false => true | _ => false end.

Definition isFailedCounter (e : Event) : bool :=
  match e with EIncrCounter scale_out_failed => true | _ => false end.

Definition isIdentify (e : Event) : bool :=
  match e with EGetMostRecentInstance _ _ _ _ => true | _ => false end.




Definition isJobScale (e : Event) : bool :=
  match e with EJobScale _ => true | _ => false end.

Definition isDescribeRegion (e : Event) : bool :=
  match e with EDescribeAWSRegion _ _ => true | _ => false end.

Definition isEvaluate (e : Event) : bool :=
  match e with EEvaluateClusterCapacity _ _ _ => true | _ => false end.

Definition isNewAsg (e : Event) : bool :=
  match e with ENewAWSAsgService _ => true | _ => false end.

(** The last reading of the clock in a trace. *)
Fixpoint lastNow (evs : list Event) : option Time :=
  match evs with
  | [] => None
  | ENow t :: rest =>
      match lastNow rest with
      | Some u => Some u
      | None => Some t
      end
  | _ :: rest => lastNow rest
  end.

(** The events after the first [done] signal, if there is one. *)
Fixpoint afterDone (evs : list Event) : option (list Event) :=
  match evs with
  | [] => None
  | e :: rest => if isDone e then Some rest else afterDone rest
  end.

(** What the retry loop keeps in balance: every failed health check is
    counted once in [cluster.scale_out_failed] and its instance is either
    terminated or detached; an instance is detached only on the way out
    through the self-disable. *)
Definition loop_accounts (r : Flow unit) (m' : Mem) (evs : list Event) : Prop :=
  occurrences isFailedCounter evs = occurrences isFailedCheck evs
  /\ (occurrences isTerminate evs + occurrences isDetach evs)%nat
     = occurrences isFailedCheck evs
  /\ occurrences isDetach evs
     = match r with Return SelfDisabled => 1%nat | _ => 0%nat end
  /\ lastNow evs
     = match r with Return NodeHealthy => Some (lastEvent m') | _ => None end
  /\ afterDone evs = match r with Return _ => Some [] | Normal _ => None end.



Definition isScaleInOk (e : Event) : bool :=
  match e with EScaleInCluster _ _ _ None => true | _ => false end.

(** ** The trace of the job loop, as a list *)

(** The log line of a group that is to be scaled. *)
Definition groupLog (c : Config) (job : JobScalingPolicy.t)
    (group : GroupScalingPolicy) : Event :=
  ELog (if JobScalingPolicy.Enabled job && JobScaling.Enabled (JobScaling_ c)
        then DebugJobScalingRequested (JobScalingPolicy.JobName job)
               (Scaling.ScaleDirection (Scaling_ group)) (GroupName group)
        else DebugJobScalingDisabled (Scaling.ScaleDirection (Scaling_ group))
               (JobScalingPolicy.JobName job) (GroupName group)).

(** What one job adds to the trace: a line for each group that is to be
    scaled, then the submission if the job is eligible. *)
Definition jobEvents (c : Config) (job : JobScalingPolicy.t) : list Event :=
  map (groupLog c job) (filter needsScaling (JobScalingPolicy.GroupScalingPolicies job))
  ++ if eligible c job then [EJobScale job] else [].

(** The events that a job pass can add to the trace. *)
Definition jobEvent (e : Event) : bool :=
  match e with
  | ELeaderCheck _ | EGetJobScalingPolicies _ _ | EEvaluateJobScaling _
  | ELog _ | EJobScale _ => true
  | _ => false
  end.

Definition isEvaluateJobs (e : Event) : bool :=
  match e with EEvaluateJobScaling _ => true | _ => false end.

(** ** Worlds and configurations to run the passes on *)

(** A world whose answers do not change. *)
Definition steady (leader : bool) (region : string * error)
    (capacity : ClusterCapacity * bool * error) (now : Time) (scaleOutErr : error)
    (newest : string * error) (healthy : bool) (detachErr : error)
    (least : string * string) (drainErr scaleInErr : error)
    (policies : list JobScalingPolicy.t * error) : World :=
  mkWorld (fun _ => leader) (fun _ => region) (fun _ _ => capacity) (fun _ => now)
    (fun _ _ _ => scaleOutErr) (fun _ _ _ => newest) (fun _ _ => healthy)
    (fun _ _ _ => "i-0abc"%string) (fun _ _ _ _ => detachErr) (fun _ _ _ => None)
    (fun _ _ => least) (fun _ _ => drainErr) (fun _ _ _ _ => scaleInErr)
    (fun _ _ => policies) (fun _ resp => resp).

Module Sample.
Open Scope string_scope.

Definition out : ClusterCapacity * bool * error :=
  (mkClusterCapacity ScalingDirectionOut, true, None).
Definition in_ : ClusterCapacity * bool * error :=
  (mkClusterCapacity ScalingDirectionIn, true, None).

Definition cfg (region : string) (T : Z) : Config :=
  mkConfig 10 region (ClusterScaling.mk true 60 T "workers") (JobScaling.mk true).

Definition fresh (region : string) (T : Z) : Mem :=
  mkMem (cfg region T) (mkScalingState 0 0) [].

(** Every new node fails its health check. *)
Definition unhealthy : World :=
  steady true ("", Some "no metadata") out 100 None ("10.0.0.7", None) false
    (Some "detach refused") ("", "") None None ([], None).

(** No new node can be identified. *)
Definition unidentified : World :=
  steady true ("", Some "no metadata") out 100 None ("", Some "no instance") false
    None ("", "") None None ([], None).

(** The first new node is healthy. *)
Definition healthy : World :=
  steady true ("", Some "no metadata") out 100 None ("10.0.0.7", None) true
    None ("", "") None None ([], None).

(** Another replica is the leader. *)
Definition follower : World :=
  steady false ("", Some "no metadata") out 100 None ("10.0.0.7", None) true
    None ("", "") None None ([], None).

(** The metadata service names the region. *)
Definition discovering : World :=
  steady true ("eu-west-1", None) (mkClusterCapacity ScalingDirectionNone, false, None)
    100 None ("10.0.0.7", None) true None ("", "") None None ([], None).

(** A node is to be removed, and its drain fails. *)
Definition undrainable : World :=
  steady true ("", Some "no metadata") in_ 100 None ("10.0.0.7", None) true
    None ("node-1", "10.0.0.9") (Some "drain timed out") None ([], None).

(** A node is to be removed, and everything works. *)
Definition shrinking : World :=
  steady true ("", Some "no metadata") in_ 100 None ("10.0.0.7", None) true
    None ("node-1", "10.0.0.9") None None ([], None).

Definition web : JobScalingPolicy.t :=
  JobScalingPolicy.mk "web" true
    [mkGroupScalingPolicy "frontend" (Scaling.mk ScalingDirectionOut);
     mkGroupScalingPolicy "cache" (Scaling.mk ScalingDirectionNone)].

Definition batch : JobScalingPolicy.t :=
  JobScalingPolicy.mk "batch" false
    [mkGroupScalingPolicy "workers" (Scaling.mk ScalingDirectionIn)].

(** Two jobs carry a scaling policy. *)
Definition jobs : World :=
  steady true ("", Some "no metadata") out 100 None ("10.0.0.7", None) true
    None ("", "") None None ([web; batch], None).

(** A scaling event happened at instant 90, the clock reads 100 and the
    cooldown lasts 60 seconds. *)
Definition cooling : Mem :=
  mkMem (cfg "eu-west-1" 2) (mkScalingState 0 90) [].

(** The leadership is won after the first call: the first cluster pass of
    the runner finds another leader, the later passes lead. *)
Definition awakening : World :=
  mkWorld (fun h => match h with [] => false | _ :: _ => true end)
    (fun _ => ("", Some "no metadata")) (fun _ _ => out) (fun _ => 100)
    (fun _ _ _ => None) (fun _ _ _ => ("10.0.0.7", None)) (fun _ _ => true)
    (fun _ _ _ => "i-0abc") (fun _ _ _ _ => None) (fun _ _ _ => None)
    (fun _ _ => ("", "")) (fun _ _ => None) (fun _ _ _ _ => None)
    (fun _ _ => ([], None)) (fun _ resp => resp).

(** The pass of [unhealthy] from [fresh "eu-west-1" 2]. *)
Definition twoAttempts : list Event :=
  [ELeaderCheck true;
   EEvaluateClusterCapacity (mkClusterCapacity ScalingDirectionOut) true None;
   ENewAWSAsgService "eu-west-1"; ELog InfoNoPreviousScaling;
   EScaleOutCluster "workers" "eu-west-1" None;
   EGetMostRecentInstance "workers" "eu-west-1" "10.0.0.7" None;
   EVerifyNodeHealth "10.0.0.7" false; ELog (ErrorNodeJoin "10.0.0.7" 1);
   EIncrCounter scale_out_failed;
   ETranslateIptoID "10.0.0.7" "eu-west-1" "i-0abc";
   ETerminateInstance "i-0abc" "eu-west-1" None; ELog (InfoRetryLaunch 1);
   EGetMostRecentInstance "workers" "eu-west-1" "10.0.0.7" None;
   EVerifyNodeHealth "10.0.0.7" false; ELog (ErrorNodeJoin "10.0.0.7" 2);
   EIncrCounter scale_out_failed;
   ETranslateIptoID "10.0.0.7" "eu-west-1" "i-0abc"; ELog (ErrorRetryThreshold 2);
   EDetachInstance "workers" "i-0abc" "eu-west-1" (Some "detach refused");
   ELog (ErrorDetach "detach refused"); EDone].

(** The pass of [unhealthy] from [fresh "eu-west-1" 0]. *)
Definition zeroThreshold : list Event :=
  [ELeaderCheck true;
   EEvaluateClusterCapacity (mkClusterCapacity ScalingDirectionOut) true None;
   ENewAWSAsgService "eu-west-1"; ELog InfoNoPreviousScaling;
   EScaleOutCluster "workers" "eu-west-1" None;
   EGetMostRecentInstance "workers" "eu-west-1" "10.0.0.7" None;
   EVerifyNodeHealth "10.0.0.7" false; ELog (ErrorNodeJoin "10.0.0.7" 1);
   EIncrCounter scale_out_failed;
   ETranslateIptoID "10.0.0.7" "eu-west-1" "i-0abc";
   ETerminateInstance "i-0abc" "eu-west-1" None; EDone;
   EIncrCounter scale_out_success].

(** The pass of [unidentified] from [fresh "eu-west-1" 1]. *)
Definition neverIdentified : list Event :=
  [ELeaderCheck true;
   EEvaluateClusterCapacity (mkClusterCapacity ScalingDirectionOut) true None;
   ENewAWSAsgService "eu-west-1"; ELog InfoNoPreviousScaling;
   EScaleOutCluster "workers" "eu-west-1" None;
   EGetMostRecentInstance "workers" "eu-west-1" "" (Some "no instance");
   ELog (ErrorIdentify "no instance"); ELog (InfoRetryLaunch 1);
   EGetMostRecentInstance "workers" "eu-west-1" "" (Some "no instance");
   ELog (ErrorIdentify "no instance"); EDone; EIncrCounter scale_out_success].

(** The pass of [discovering] from [fresh "" 2]. *)
Definition discovered : list Event :=
  [ELeaderCheck true; EDescribeAWSRegion "eu-west-1" None;
   EEvaluateClusterCapacity (mkClusterCapacity ScalingDirectionNone) false None;
   ELog DebugNoScaling; EDone; EIncrCounter scale_out_success].

(** The pass of [shrinking] from [fresh "eu-west-1" 2]. *)
Definition shrunk : list Event :=
  [ELeaderCheck true;
   EEvaluateClusterCapacity (mkClusterCapacity ScalingDirectionIn) true None;
   ENewAWSAsgService "eu-west-1"; ELog InfoNoPreviousScaling;
   ELeastAllocatedNode (mkClusterCapacity ScalingDirectionIn) "node-1" "10.0.0.9";
   EDrainNode "node-1" None; ELog (InfoTerminating "10.0.0.9");
   EScaleInCluster "workers" "10.0.0.9" "eu-west-1" None;
   ENow 100; EDone; EIncrCounter scale_out_success].

(** The job pass of [jobs]. *)
Definition submitted : list Event :=
  [ELeaderCheck true; EGetJobScalingPolicies [web; batch] None;
   EEvaluateJobScaling [web; batch];
   ELog (DebugJobScalingRequested "web" ScalingDirectionOut "frontend");
   EJobScale web;
   ELog (DebugJobScalingDisabled ScalingDirectionIn "batch" "workers")].

(** The autoscaling group refuses the request for more capacity. *)
Definition refusing : World :=
  steady true ("", Some "no metadata") out 100 (Some "capacity limit")
    ("10.0.0.7", None) true None ("", "") None None ([], None).

(** Cluster scaling has disabled itself at a count of 2. *)
Definition disabled : Mem :=
  mkMem (with_Enabled false (cfg "eu-west-1" 2)) (mkScalingState 2 0) [].

(** The pass of [healthy] from [fresh "eu-west-1" 2]. *)
Definition joined : list Event :=
  [ELeaderCheck true;
   EEvaluateClusterCapacity (mkClusterCapacity ScalingDirectionOut) true None;
   ENewAWSAsgService "eu-west-1"; ELog InfoNoPreviousScaling;
   EScaleOutCluster "workers" "eu-west-1" None;
   EGetMostRecentInstance "workers" "eu-west-1" "10.0.0.7" None;
   EVerifyNodeHealth "10.0.0.7" true; ENow 100; EDone].

(** The pass of [refusing] from [fresh "eu-west-1" 2]. *)
Definition refused : list Event :=
  [ELeaderCheck true;
   EEvaluateClusterCapacity (mkClusterCapacity ScalingDirectionOut) true None;
   ENewAWSAsgService "eu-west-1"; ELog InfoNoPreviousScaling;
   EScaleOutCluster "workers" "eu-west-1" (Some "capacity limit");
   ELog (ErrorScaleOut "workers" "capacity limit"); EDone].

(** One turn of the retry loop of [unidentified]. *)
Definition lookedUp : list Event :=
  [EGetMostRecentInstance "workers" "eu-west-1" "" (Some "no instance");
   ELog (ErrorIdentify "no instance")].

(** Two ticks of [awakening]: a pass as follower, then a pass that adds a
    healthy node, each followed by a job pass without jobs. *)
Definition twoTicks : list Event :=
  [ELeaderCheck false; ELog DebugNotLeaderCluster; EDone;
   ELeaderCheck true; EGetJobScalingPolicies [] None; EEvaluateJobScaling [];
   ELeaderCheck true;
   EEvaluateClusterCapacity (mkClusterCapacity ScalingDirectionOut) true None;
   ENewAWSAsgService "eu-west-1"; ELog InfoNoPreviousScaling;
   EScaleOutCluster "workers" "eu-west-1" None;
   EGetMostRecentInstance "workers" "eu-west-1" "10.0.0.7" None;
   EVerifyNodeHealth "10.0.0.7" true; ENow 100; EDone;
   ELeaderCheck true; EGetJobScalingPolicies [] None; EEvaluateJobScaling []].
End Sample.

(** * Proofs *)

Ltac unfold_pass :=
  cbv beta iota delta
    [bind ret return_ emit call log logError getConfig getState
     modifyConfig modifyState timeNow] in *.

Ltac unfold_cluster :=
  unfold clusterScaling, evaluate, prepare, cooldownGate, scaleOut,
    requestScaleOut, scaleIn in *.

Ltac destruct_inner x :=
  lazymatch x with
  | context [match ?y with _ => _ end] => destruct_inner y
  | negb ?y => destruct_inner y
  | is_nil ?y => destruct_inner y
  | andb ?y _ => destruct_inner y
  | orb ?y _ => destruct_inner y
  | _ => destruct x eqn:?
  end.

(** Follow a run [H : c m = Some (r, m')] through every branch of [c]. *)
Ltac split_run H :=
  cbn in H;
  repeat (lazymatch type of H with
          | Some _ = Some _ => fail
          | None = Some _ => fail
          | context [match ?x with _ => _ end] => destruct_inner x
          end; cbn in H);
  try discriminate H;
  try (lazymatch type of H with Some _ = Some _ => inversion H; subst; clear H end).

(** Follow the run in the goal through every branch. *)
Ltac split_goal :=
  cbn;
  repeat (lazymatch goal with
          | |- context [match ?x with _ => _ end] => destruct_inner x
          end; cbn).

Arguments wrap : simpl never.

Lemma dones_app (a b : list Event) : dones (a ++ b) = (dones a + dones b)%nat.
Proof. unfold dones. now rewrite filter_app, List.length_app. Qed.

Lemma successes_app (a b : list Event) :
  successes (a ++ b) = (successes a + successes b)%nat.
Proof. unfold successes. now rewrite filter_app, List.length_app. Qed.

Lemma attempts_app (a b : list Event) :
  attempts (a ++ b) = (attempts a + attempts b)%nat.
Proof. unfold attempts. now rewrite filter_app, List.length_app. Qed.

(** Every way out of the retry loop is one of the three of [loop_post]. *)
Lemma retryLoop_post (w : World) (sess : Session) (fuel : nat) :
  forall m r m',
    retryLoop w fuel sess m = Some (r, m') -> exists evs, loop_post m r m' evs.
Proof.
  induction fuel as [|fuel IH]; intros [c s t] r m' H.
  - cbn in H. destruct (_ <=? _) eqn:E; [discriminate|].
    inversion H; subst. exists []. unfold loop_post, threshold, failures, lastEvent.
    cbn. rewrite app_nil_r. repeat split; auto. lia.
  - cbn [retryLoop] in H. cbn [scalingState config] in H.
    destruct (_ <=? _) eqn:E.
    2:{ inversion H; subst. exists [].
        unfold loop_post, threshold, failures, lastEvent. cbn.
        rewrite app_nil_r. repeat split; auto. lia. }
    unfold retryAttempt, disableClusterScaling in H. unfold_pass.
    split_run H.
    all: try (apply IH in H; destruct H as (evs & Ht & Hf & Hr); cbn [trace] in Ht;
              rewrite <- ?app_assoc in Ht; cbn [app] in Ht;
              eexists; split; [exact Ht|]).
    all: try (eexists; split;
              [cbn [trace]; rewrite <- ?app_assoc; cbn [app]; reflexivity|]).
    all: (split; [repeat (constructor; [reflexivity|]); try assumption; try constructor|]).
    all: unfold threshold, failures, lastEvent, dones in *; cbn in *.
    all: try (destruct r as [[]|[]]; cbn in *; intuition (try congruence; try lia)).
    all: intuition (try congruence; try lia).
Qed.

(** Bring the events of a finished run into the open: [Htrace] says that the
    final trace is the initial one followed by [evs]. *)
Ltac open_trace Htrace :=
  cbn [trace config scalingState] in *;
  try match goal with
      | H : retryLoop _ _ _ _ = Some _ |- _ =>
          apply retryLoop_post in H;
          let evs := fresh "loopEvs" in
          let Ht := fresh "Hloop" in
          let Hf := fresh "Hkinds" in
          let Hr := fresh "Hexit" in
          destruct H as (evs & Ht & Hf & Hr);
          cbn [trace config scalingState] in Ht, Hr;
          first [rewrite Ht in Htrace | cbn [trace] in Htrace; rewrite Ht in Htrace]
      end;
  rewrite <- ?app_assoc in Htrace; cbn [app] in Htrace;
  apply app_inv_head in Htrace; subst.

(** Take [H : In e evs] apart, down to the events of the retry loop. *)
Ltac split_in H :=
  repeat first
    [ discriminate H
    | contradiction H
    | apply in_app_or in H; destruct H as [H|H]
    | destruct H as [H|H] ].

Ltac not_in_loop H :=
  match goal with
  | Hk : Forall _ ?l |- _ =>
      match type of H with
      | In _ l =>
          let Hk' := fresh in
          pose proof (proj1 (Forall_forall _ _) Hk _ H) as Hk'; discriminate Hk'
      end
  end.

Ltac healthy_in_loop H :=
  match goal with
  | Hx : existsb isHealthyCheck ?l = false |- _ =>
      match type of H with
      | In _ l =>
          let Hk := fresh in
          assert (Hk : existsb isHealthyCheck l = true)
            by (apply existsb_exists; eexists; split; [exact H|reflexivity]);
          congruence
      end
  end.

(** ** Runs

    The passes on the sample worlds, event by event. *)

(** Section 8 of the specification, retry threshold 2: the first failed node
    is terminated, the second brings the count to 2 and is detached. *)
Example unhealthy_run :
  clusterScaling Sample.unhealthy 2 (Sample.fresh "eu-west-1" 2)
  = Some (Return SelfDisabled,
          mkMem (with_Enabled false (Sample.cfg "eu-west-1" 2))
            (mkScalingState 2 0) Sample.twoAttempts).
Proof. vm_compute. reflexivity. Qed.

(** A scale-in that works: drain, terminate, then the timestamp. *)
Example shrinking_run :
  clusterScaling Sample.shrinking 0 (Sample.fresh "eu-west-1" 2)
  = Some (Return EndOfPass,
          mkMem (Sample.cfg "eu-west-1" 2) (mkScalingState 0 100) Sample.shrunk).
Proof. vm_compute. reflexivity. Qed.

(** Two jobs: the enabled one is submitted once, whole; the disabled one
    gets a log line only. *)
Example jobs_run :
  jobScaling Sample.jobs (Sample.fresh "eu-west-1" 2)
  = Some (Return EndOfJobPass,
          mkMem (Sample.cfg "eu-west-1" 2) (mkScalingState 0 0) Sample.submitted).
Proof. vm_compute. reflexivity. Qed.

(** Without fuel the retry loop is cut off before its first turn. *)
Example unhealthy_cut_off :
  clusterScaling Sample.unhealthy 1 (Sample.fresh "eu-west-1" 2) = None.
Proof. vm_compute. reflexivity. Qed.

(** ** Leadership *)

(** C7: when the leadership check answers that this process is not the
    leader, the cluster pass and the job pass both end at once, whatever the
    collaborators would have answered afterwards: no call that changes a
    collaborator is made, and the configuration and the scaling state are
    left as they were. *)
Theorem non_leader_pass_is_inert (w : World) (fuel : nat) (m : Mem) :
  LeaderCheck w (trace m) = false ->
  (exists evs,
      clusterScaling w fuel m
      = Some (Return NotLeader, mkMem (config m) (scalingState m) (trace m ++ evs))
      /\ evs = [ELeaderCheck false; ELog DebugNotLeaderCluster; EDone]
      /\ filter mutating evs = [])
  /\ (exists evs,
      jobScaling w m
      = Some (Return JobNotLeader, mkMem (config m) (scalingState m) (trace m ++ evs))
      /\ evs = [ELeaderCheck false; ELog DebugNotLeaderJob]
      /\ filter mutating evs = []).
Proof.
  intros H. split; eexists; (split; [|split; [reflexivity|reflexivity]]).
  - unfold_cluster. unfold_pass. cbn. rewrite H. cbn.
    now rewrite <- !app_assoc.
  - unfold jobScaling. unfold_pass. cbn. rewrite H. cbn.
    now rewrite <- !app_assoc.
Qed.

Lemma non_leader_pass_is_inert_witness :
  LeaderCheck Sample.follower [] = false
  /\ clusterScaling Sample.follower 0 (Sample.fresh "eu-west-1" 2)
     = Some (Return NotLeader,
             mkMem (Sample.cfg "eu-west-1" 2) (mkScalingState 0 0)
               [ELeaderCheck false; ELog DebugNotLeaderCluster; EDone]).
Proof.
  split; [reflexivity|].
  destruct (non_leader_pass_is_inert Sample.follower 0 (Sample.fresh "eu-west-1" 2)
              eq_refl) as [(evs & Hrun & Hevs & _) _].
  rewrite Hrun, Hevs. reflexivity.
Defined.

(** ** Cooldown *)

(** C4: in a pass that starts with a non-zero [LastScalingEvent] while the
    clock reads an instant before [LastScalingEvent + CoolDown], the pass
    signals completion once, makes no call that changes a collaborator and
    leaves the scaling state as it was, whatever direction the evaluation
    asks for; and with a zero [LastScalingEvent] the cooldown gate lets the
    pass through whatever the clock reads. *)
Theorem cooldown_suppresses_pass (w : World) (fuel : nat) (m : Mem) :
  (IsZero (lastEvent m) = false ->
   (forall h, Before (Now w h) (cooldownDeadline (config m) (scalingState m)) = true) ->
   exists site m' evs,
     clusterScaling w fuel m = Some (Return site, m')
     /\ trace m' = trace m ++ evs
     /\ filter mutating evs = []
     /\ scalingState m' = scalingState m
     /\ dones evs = 1%nat)
  /\ (IsZero (lastEvent m) = true ->
      cooldownGate w m
      = Some (Normal tt,
              mkMem (config m) (scalingState m) (trace m ++ [ELog InfoNoPreviousScaling]))
      /\ forall r m', clusterScaling w fuel m = Some (r, m') -> r <> Return CooldownActive).
Proof.
  destruct m as [c s t]. unfold lastEvent. cbn [scalingState config trace]. split.
  - intros Hz Hnow. unfold_cluster. unfold_pass.
    unfold cooldownDeadline, coolDownDuration, IsZero, Before, Add in *.
    cbn [config scalingState trace LastScalingEvent] in *.
    split_goal.
    all: try (exfalso; repeat match goal with
                 | H : context [Now _ _ <? _] |- _ => rewrite Hnow in H
                 | H : context [LastScalingEvent _ =? 0] |- _ => rewrite Hz in H
                 end; discriminate).
    all: do 3 eexists; (split; [reflexivity|]); cbn; rewrite <- ?app_assoc; cbn.
    all: (split; [reflexivity|]); cbn; auto.
  - intros Hz. split.
    + unfold cooldownGate. unfold_pass. cbn [scalingState]. rewrite Hz. reflexivity.
    + intros r m' H. unfold_cluster. unfold_pass. unfold IsZero in *.
      cbn [config scalingState trace LastScalingEvent] in *.
      split_run H; try discriminate.
      all: try congruence.
      all: match goal with
           | H : retryLoop _ _ _ _ = Some _ |- _ =>
               apply retryLoop_post in H; destruct H as (evs & _ & _ & H);
               cbn in H; intros E; inversion E; subst; exact H
           end.
Qed.

Lemma cooldown_suppresses_pass_witness :
  (exists site m' evs,
      clusterScaling Sample.unhealthy 3 Sample.cooling = Some (Return site, m')
      /\ trace m' = [] ++ evs
      /\ filter mutating evs = []
      /\ scalingState m' = mkScalingState 0 90
      /\ dones evs = 1%nat)
  /\ cooldownGate Sample.unhealthy (Sample.fresh "eu-west-1" 2)
     = Some (Normal tt,
             mkMem (Sample.cfg "eu-west-1" 2) (mkScalingState 0 0)
               [ELog InfoNoPreviousScaling]).
Proof.
  split.
  - apply (proj1 (cooldown_suppresses_pass Sample.unhealthy 3 Sample.cooling)).
    + reflexivity.
    + intros h. reflexivity.
  - apply (proj2 (cooldown_suppresses_pass Sample.unhealthy 3
                    (Sample.fresh "eu-west-1" 2))).
    reflexivity.
Defined.

(** ** Scale-in *)

Lemma drainsFirst_sound (evs : list Event) : forall drained,
  drainsFirst drained evs = true ->
  forall pre e post, evs = pre ++ e :: post -> removesInstance e = true ->
  drained = true \/ exists nodeID, In (EDrainNode nodeID None) pre.
Proof.
  intros drained H pre; revert evs drained H.
  induction pre as [|p pre IH]; intros evs drained H e post E R; subst evs.
  - left. destruct e; cbn in R; try discriminate; cbn in H;
      apply andb_prop in H; destruct H as [H _]; exact H.
  - assert (Hp : (drainsFirst drained (pre ++ e :: post) = true)
                 \/ (drainsFirst true (pre ++ e :: post) = true
                     /\ exists nodeID, p = EDrainNode nodeID None)).
    { destruct p; cbn in H; try (left; exact H);
        try (apply andb_prop in H; destruct H as [_ H]; left; exact H).
      match type of H with context [match ?x with _ => _ end] => destruct x end.
      - left; exact H.
      - right; eauto. }
    destruct Hp as [Hp|(Hp & n & ->)].
    + destruct (IH _ _ Hp e post eq_refl R) as [?|(n & Hn)]; [now left|].
      right; exists n; now right.
    + right; exists n; now left.
Qed.

(** C6: in a pass whose evaluation asks for a scale-in, an instance is
    removed only after a node was drained without error, [LastScalingEvent]
    changes only if [ScaleInCluster] succeeded, and when the drain fails no
    instance is removed and [LastScalingEvent] stays as it was. *)
Theorem scale_in_drains_before_terminating (w : World) (fuel : nat) (m : Mem)
    (r : Flow unit) (m' : Mem) (evs : list Event) :
  clusterScaling w fuel m = Some (r, m') ->
  trace m' = trace m ++ evs ->
  askedDirection evs = Some ScalingDirectionIn ->
  (forall pre e post, evs = pre ++ e :: post -> removesInstance e = true ->
     exists nodeID, In (EDrainNode nodeID None) pre)
  /\ (lastEvent m' <> lastEvent m ->
      exists asg nodeIP sess, In (EScaleInCluster asg nodeIP sess None) evs)
  /\ (forall nodeID e, In (EDrainNode nodeID (Some e)) evs ->
      filter removesInstance evs = [] /\ lastEvent m' = lastEvent m).
Proof.
  destruct m as [c s t]. intros H Htrace Hdir.
  assert (Hfirst :
    drainsFirst false evs = true
    /\ (lastEvent m' <> lastEvent (mkMem c s t) ->
        exists asg nodeIP sess, In (EScaleInCluster asg nodeIP sess None) evs)
    /\ (forall nodeID e, In (EDrainNode nodeID (Some e)) evs ->
        filter removesInstance evs = [] /\ lastEvent m' = lastEvent (mkMem c s t))).
  2:{ destruct Hfirst as (Hfirst & H2 & H3). split; [|split; assumption].
      intros pre e post E R.
      destruct (drainsFirst_sound evs false Hfirst pre e post E R) as [?|?];
        [discriminate|assumption]. }
  unfold_cluster. unfold_pass. split_run H.
  all: open_trace Htrace.
  all: cbn in Hdir; inversion Hdir as [Hd]; clear Hdir.
  all: try (rewrite Hd in *; discriminate).
  all: unfold lastEvent; cbn.
  all: (split; [reflexivity|split]).
  all: try (intros Hne;
            first [ exfalso; apply Hne; reflexivity
                  | do 3 eexists; repeat (first [left; reflexivity | right]) ]).
  all: intros nodeID e0 Hin;
       repeat (destruct Hin as [Hin|Hin]; try discriminate Hin); try contradiction.
  all: split; reflexivity.
Qed.

Lemma scale_in_drains_before_terminating_witness :
  exists m' evs,
    clusterScaling Sample.undrainable 0 (Sample.fresh "eu-west-1" 2)
    = Some (Return EndOfPass, m')
    /\ trace m' = evs
    /\ In (EDrainNode "node-1"%string (Some "drain timed out"%string)) evs
    /\ filter removesInstance evs = []
    /\ lastEvent m' = 0.
Proof.
  eexists; eexists. split; [vm_compute; reflexivity|]. split; [reflexivity|].
  split; [cbn; tauto|].
  match goal with
  | |- filter _ ?evs = [] /\ lastEvent ?m' = _ =>
      assert (H1 : clusterScaling Sample.undrainable 0 (Sample.fresh "eu-west-1" 2)
                   = Some (Return EndOfPass, m')) by (vm_compute; reflexivity);
      assert (H2 : trace m' = trace (Sample.fresh "eu-west-1" 2) ++ evs)
        by (vm_compute; reflexivity);
      assert (H3 : askedDirection evs = Some ScalingDirectionIn)
        by (vm_compute; reflexivity);
      exact (proj2 (proj2 (scale_in_drains_before_terminating _ _ _ _ _ _ H1 H2 H3))
               "node-1"%string "drain timed out"%string ltac:(cbn; tauto))
  end.
Defined.

(** ** The success counter *)

Lemma loop_events_no_success (evs : list Event) :
  Forall (fun e => loopEvent e = true) evs ->
  List.length (filter isSuccessCounter evs) = 0%nat.
Proof.
  induction 1 as [|e evs He _ IH]; [reflexivity|].
  cbn. destruct e; try discriminate He; try exact IH.
  destruct name; [discriminate He|exact IH].
Qed.

(** C10: the [cluster.scale_out_success] counter is incremented exactly in
    the passes that run to the end of [clusterScaling]: a pass in which a new
    node is verified healthy returns without it, while a pass whose
    evaluation asks for no scaling, and a scale-in pass that gets to drain a
    node, end with it. *)
Theorem success_counter_only_at_end_of_pass (w : World) (fuel : nat) (m : Mem)
    (r : Flow unit) (m' : Mem) (evs : list Event) :
  clusterScaling w fuel m = Some (r, m') ->
  trace m' = trace m ++ evs ->
  (exists site,
      r = Return site
      /\ successes evs = (if isEndOfPass site then 1 else 0)%nat)
  /\ (forall node, In (EVerifyNodeHealth node true) evs ->
      r = Return NodeHealthy /\ successes evs = 0%nat)
  /\ (forall capacity scale err,
      In (EEvaluateClusterCapacity capacity scale err) evs ->
      scale = false \/ err <> None ->
      r = Return EndOfPass /\ successes evs = 1%nat)
  /\ (forall nodeID err, In (EDrainNode nodeID err) evs ->
      r = Return EndOfPass /\ successes evs = 1%nat).
Proof.
  destruct m as [c s t]. intros H Htrace.
  unfold_cluster. unfold_pass. split_run H.
  all: open_trace Htrace.
  all: unfold successes; cbn;
       rewrite ?filter_app, ?List.length_app; cbn;
       try match goal with
           | Hk : Forall _ ?l |- _ => rewrite (loop_events_no_success l Hk)
           end; cbn.
  all: try match goal with
           | Hx : match ?site with NotLeader => _ | _ => _ end |- _ =>
               destruct site; try contradiction;
               destruct Hx as (? & ? & ? & ?)
           end.
  all: repeat match goal with
              | Hx : _ /\ _ |- _ => destruct Hx
              end.
  all: split; [eexists; split; reflexivity|].
  all: split; [intros node Hin; split_in Hin; try not_in_loop Hin;
               try healthy_in_loop Hin; try (split; reflexivity)|].
  all: split; [intros capacity scale err Hin Hor; split_in Hin;
               try not_in_loop Hin;
               try (inversion Hin; subst; clear Hin; destruct Hor; try congruence);
               try (split; reflexivity)|].
  all: intros nodeID err Hin; split_in Hin; try not_in_loop Hin;
       try (split; reflexivity).
Qed.

Lemma success_counter_only_at_end_of_pass_witness :
  exists m' evs,
    clusterScaling Sample.healthy 1 (Sample.fresh "eu-west-1" 2)
    = Some (Return NodeHealthy, m')
    /\ trace m' = evs
    /\ In (EVerifyNodeHealth "10.0.0.7"%string true) evs
    /\ successes evs = 0%nat.
Proof.
  eexists; eexists. split; [vm_compute; reflexivity|]. split; [reflexivity|].
  split; [cbn; tauto|].
  match goal with
  | |- successes ?evs = _ =>
      assert (H1 : clusterScaling Sample.healthy 1 (Sample.fresh "eu-west-1" 2)
                   = Some (Return NodeHealthy, mkMem (Sample.cfg "eu-west-1" 2)
                                                 (mkScalingState 0 100) evs))
        by (vm_compute; reflexivity);
      exact (proj2 (proj1 (proj2 (success_counter_only_at_end_of_pass
                                    _ _ _ _ _ evs H1 eq_refl))
                      "10.0.0.7"%string ltac:(cbn; tauto)))
  end.
Defined.

(** ** Job scaling *)

Lemma needsScaling_count (groups : list GroupScalingPolicy) :
  (0 <? Z.of_nat (List.length (filter needsScaling groups)))
  = existsb needsScaling groups.
Proof.
  induction groups as [|g groups IH]; [reflexivity|].
  cbn. destruct (needsScaling g); cbn; [reflexivity|exact IH].
Qed.

(** The inner loop of [jobScaling] only logs, and counts the groups to scale
    when scaling is on for the job and in the configuration. *)
Lemma countGroups_run (job : JobScalingPolicy.t)
    (groups : list GroupScalingPolicy) : forall i m,
  exists logs,
    countGroups job groups i m
    = Some (Normal
              (i + if JobScalingPolicy.Enabled job
                      && JobScaling.Enabled (JobScaling_ (config m))
                   then Z.of_nat (List.length (filter needsScaling groups)) else 0),
            mkMem (config m) (scalingState m) (trace m ++ logs))
    /\ jobScaleCalls logs = [].
Proof.
  induction groups as [|g groups IH]; intros i [c s t].
  - exists []. cbn. rewrite app_nil_r.
    destruct (_ && _); rewrite Z.add_0_r; auto.
  - cbn [countGroups filter]. destruct (needsScaling g) eqn:Hg.
    + unfold_pass. cbn [config scalingState trace].
      destruct (JobScalingPolicy.Enabled job && JobScaling.Enabled (JobScaling_ c)) eqn:He.
      all: cbv beta iota; cbn [config scalingState trace].
      all: match goal with
           | |- context [countGroups _ _ ?j ?m1] =>
               destruct (IH j m1) as (logs & Hrun & Hlogs)
           end.
      all: cbn [config scalingState trace] in Hrun; rewrite He in Hrun.
      all: match type of Hrun with
           | context [_ ++ [?e]] => exists (e :: logs)
           end.
      all: (split; [rewrite Hrun; rewrite <- app_assoc|exact Hlogs]).
      * cbn [List.length]. rewrite Nat2Z.inj_succ.
        replace (i + 1 + Z.of_nat (List.length (filter needsScaling groups)))
          with (i + Z.succ (Z.of_nat (List.length (filter needsScaling groups)))) by lia.
        reflexivity.
      * reflexivity.
    + destruct (IH i (mkMem c s t)) as (logs & Hrun & Hlogs).
      exists logs. split; [exact Hrun|exact Hlogs].
Qed.

Lemma jobScaleCalls_app (a b : list Event) :
  jobScaleCalls (a ++ b) = jobScaleCalls a ++ jobScaleCalls b.
Proof.
  induction a as [|e a IH]; [reflexivity|].
  destruct e; cbn; rewrite ?IH; reflexivity.
Qed.

(** One job: it is handed to [JobScale] once, whole, when it is eligible,
    and not at all otherwise. *)
Lemma scaleJob_run (job : JobScalingPolicy.t) (m : Mem) :
  exists logs,
    scaleJob job m
    = Some (Normal tt,
            mkMem (config m) (scalingState m)
              (trace m ++ logs ++ if eligible (config m) job then [EJobScale job] else []))
    /\ jobScaleCalls logs = [].
Proof.
  destruct (countGroups_run job (JobScalingPolicy.GroupScalingPolicies job) 0 m)
    as (logs & Hrun & Hlogs).
  exists logs. split; [|exact Hlogs].
  unfold scaleJob, bind. rewrite Hrun. unfold eligible.
  destruct (JobScalingPolicy.Enabled job && JobScaling.Enabled (JobScaling_ (config m))).
  - rewrite Z.add_0_l, needsScaling_count, andb_true_r.
    destruct (existsb _ _); cbn; unfold emit, ret; cbn;
      rewrite <- ?app_assoc, ?app_nil_r; reflexivity.
  - rewrite andb_false_r. cbn. unfold ret. now rewrite app_nil_r.
Qed.

Lemma scaleJobs_run (resp : list JobScalingPolicy.t) : forall m,
  exists evs,
    scaleJobs resp m
    = Some (Normal tt, mkMem (config m) (scalingState m) (trace m ++ evs))
    /\ jobScaleCalls evs = filter (eligible (config m)) resp.
Proof.
  induction resp as [|job resp IH]; intros m.
  - exists []. cbn. rewrite app_nil_r. destruct m; auto.
  - destruct (scaleJob_run job m) as (logs & Hrun & Hlogs).
    cbn [scaleJobs]. unfold bind. rewrite Hrun.
    match goal with
    | |- context [scaleJobs resp ?m1] => destruct (IH m1) as (evs & Hrest & Hcalls)
    end.
    cbn [config scalingState trace] in Hrest, Hcalls.
    eexists. split.
    + rewrite Hrest. rewrite <- app_assoc. reflexivity.
    + rewrite !jobScaleCalls_app, Hlogs, Hcalls. cbn [filter].
      destruct (eligible (config m) job); reflexivity.
Qed.

(** C9: each job of a job-scaling pass is handed to [JobScale] exactly once,
    as a whole, when one of its groups is to be scaled out or in while
    scaling is enabled for the job and in the configuration; otherwise it is
    not handed over at all.  The calls of a pass are the eligible jobs among
    those that [EvaluateJobScaling] returned, in their order. *)
Theorem job_submitted_once_iff_eligible (w : World) (m : Mem) :
  (forall job,
      exists logs,
        scaleJob job m
        = Some (Normal tt,
                mkMem (config m) (scalingState m)
                  (trace m ++ logs
                   ++ if eligible (config m) job then [EJobScale job] else []))
        /\ jobScaleCalls logs = [])
  /\ (forall resp,
      LeaderCheck w (trace m) = true ->
      GetJobScalingPolicies w (trace m ++ [ELeaderCheck true]) (config m)
      = (resp, None) ->
      exists evs,
        jobScaling w m
        = Some (Return EndOfJobPass,
                mkMem (config m) (scalingState m) (trace m ++ evs))
        /\ jobScaleCalls evs
           = filter (eligible (config m))
               (EvaluateJobScaling w
                  (trace m ++ [ELeaderCheck true; EGetJobScalingPolicies resp None])
                  resp)).
Proof.
  split; [intros job; apply scaleJob_run|].
  intros resp Hlead Hget. destruct m as [c s t]. cbn [config scalingState trace] in *.
  unfold jobScaling. unfold_pass. cbn. rewrite Hlead. cbn. rewrite Hget. cbn.
  rewrite <- !app_assoc. cbn [app].
  match goal with
  | |- context [scaleJobs ?l ?m1] => destruct (scaleJobs_run l m1) as (evs & Hrun & Hcalls)
  end.
  cbn [config scalingState trace] in Hrun, Hcalls. rewrite Hrun.
  eexists. split.
  - rewrite <- !app_assoc. cbn [app]. reflexivity.
  - cbn. exact Hcalls.
Qed.

Lemma job_submitted_once_iff_eligible_witness :
  exists evs,
    jobScaling Sample.jobs (Sample.fresh "eu-west-1" 2)
    = Some (Return EndOfJobPass,
            mkMem (Sample.cfg "eu-west-1" 2) (mkScalingState 0 0) evs)
    /\ jobScaleCalls evs = [Sample.web].
Proof.
  destruct (proj2 (job_submitted_once_iff_eligible Sample.jobs
                     (Sample.fresh "eu-west-1" 2))
              [Sample.web; Sample.batch] eq_refl eq_refl) as (evs & Hrun & Hcalls).
  exists evs. split; [exact Hrun|exact Hcalls].
Defined.

(** ** What the passes write to the configuration *)

(** The job pass always ends, and writes neither to the configuration nor to
    the scaling state. *)
Lemma jobScaling_run (w : World) (m : Mem) :
  exists site evs,
    jobScaling w m
    = Some (Return site, mkMem (config m) (scalingState m) (trace m ++ evs)).
Proof.
  destruct m as [c s t]. unfold jobScaling. unfold_pass. cbn.
  destruct (LeaderCheck w t); cbn.
  2:{ do 2 eexists. rewrite <- app_assoc. reflexivity. }
  destruct (GetJobScalingPolicies w _ c) as [resp [err|]]; cbn.
  - do 2 eexists. rewrite <- !app_assoc. reflexivity.
  - match goal with
    | |- context [scaleJobs ?l ?m1] => destruct (scaleJobs_run l m1) as (evs & Hrun & _)
    end.
    rewrite Hrun. cbn. do 2 eexists. rewrite <- !app_assoc. reflexivity.
Qed.

(** C5, as the code has it: a cluster pass writes to two fields of the
    configuration only.  [Region] is set to the region that
    [DescribeAWSRegion] found when it was empty, and [ClusterScaling.Enabled]
    is set to false when the pass leaves through the self-disable; all other
    fields keep their values.  A job pass writes nothing. *)
Theorem config_written_only_in_region_and_enabled (w : World) (fuel : nat) (m : Mem) :
  (forall r m' evs,
      clusterScaling w fuel m = Some (r, m') ->
      trace m' = trace m ++ evs ->
      ScalingInterval (config m') = ScalingInterval (config m)
      /\ JobScaling_ (config m') = JobScaling_ (config m)
      /\ ClusterScaling.CoolDown (ClusterScaling_ (config m'))
         = ClusterScaling.CoolDown (ClusterScaling_ (config m))
      /\ ClusterScaling.RetryThreshold (ClusterScaling_ (config m'))
         = ClusterScaling.RetryThreshold (ClusterScaling_ (config m))
      /\ ClusterScaling.AutoscalingGroup (ClusterScaling_ (config m'))
         = ClusterScaling.AutoscalingGroup (ClusterScaling_ (config m))
      /\ (Region (config m') = Region (config m)
          \/ Region (config m) = ""%string
             /\ In (EDescribeAWSRegion (Region (config m')) None) evs)
      /\ (enabled m' = enabled m
          \/ enabled m' = false /\ r = Return SelfDisabled))
  /\ (exists site evs,
      jobScaling w m
      = Some (Return site, mkMem (config m) (scalingState m) (trace m ++ evs))).
Proof.
  split; [|apply jobScaling_run].
  destruct m as [c s t]. intros r m' evs H Htrace.
  unfold_cluster. unfold_pass. split_run H.
  all: open_trace Htrace.
  all: try match goal with
           | Hx : match ?site with NotLeader => _ | _ => _ end |- _ =>
               destruct site; try contradiction
           end.
  all: repeat match goal with
              | Hx : _ /\ _ |- _ => destruct Hx
              end.
  all: unfold enabled; cbn [config scalingState trace] in *.
  all: repeat match goal with
              | Hx : config ?m = _ |- _ => rewrite Hx; clear Hx
              end.
  all: cbn.
  all: repeat (split; [reflexivity|]).
  all: try match goal with
           | Hx : (Region _ =? "")%string = true |- _ => apply String.eqb_eq in Hx
           end.
  all: split; [first [left; reflexivity | right; split; [assumption|cbn; tauto]]|].
  all: first [left; reflexivity | right; split; reflexivity].
Qed.

Lemma config_written_only_in_region_and_enabled_witness :
  exists m' evs,
    clusterScaling Sample.discovering 0 (Sample.fresh "" 2)
    = Some (Return EndOfPass, m')
    /\ trace m' = evs
    /\ ClusterScaling_ (config m') = ClusterScaling_ (Sample.cfg "" 2)
    /\ Region (config m') = "eu-west-1"%string.
Proof.
  eexists; eexists. split; [vm_compute; reflexivity|]. split; [reflexivity|].
  match goal with
  | |- ClusterScaling_ (config ?m') = _ /\ _ =>
      assert (H1 : clusterScaling Sample.discovering 0 (Sample.fresh "" 2)
                   = Some (Return EndOfPass, m')) by (vm_compute; reflexivity);
      pose proof (proj1 (config_written_only_in_region_and_enabled
                           Sample.discovering 0 (Sample.fresh "" 2))
                    _ _ _ H1 eq_refl) as H
  end.
  split; reflexivity.
Defined.

(** The claim C5 as it was written fails: a pass that starts without a
    region and finds one through the metadata service leaves the
    configuration with that region. *)
Lemma region_written_by_cluster_pass :
  clusterScaling Sample.discovering 0 (Sample.fresh "" 2)
  = Some (Return EndOfPass,
          mkMem (Sample.cfg "eu-west-1" 2) (mkScalingState 0 0) Sample.discovered)
  /\ Region (Sample.cfg "" 2) = ""%string
  /\ Region (Sample.cfg "eu-west-1" 2) = "eu-west-1"%string
  /\ ~ (Sample.cfg "eu-west-1" 2 = Sample.cfg "" 2
        \/ Sample.cfg "eu-west-1" 2 = with_Enabled false (Sample.cfg "" 2)).
Proof.
  split; [vm_compute; reflexivity|].
  split; [reflexivity|]. split; [reflexivity|].
  intros [H|H]; discriminate H.
Qed.

(** ** One turn of the retry loop *)

(** C8: in a turn of the retry loop in which the new node fails its health
    check, the failure count goes up by one and the node address is
    translated to an instance id.  When the count is now the retry threshold,
    cluster scaling is disabled, the instance is detached and not terminated,
    and the pass signals completion and returns, whether the detach worked or
    not.  Otherwise the instance is terminated, nothing is detached, no
    completion is signalled, and the loop goes on with its next turn. *)
Theorem failed_instance_detached_on_disable_else_terminated
    (w : World) (asgSess : Session) (m : Mem) :
  exists r m' evs,
    retryAttempt w asgSess m = Some (r, m')
    /\ trace m' = trace m ++ evs
    /\ (forall node, In (EVerifyNodeHealth node false) evs ->
        failures m' = incr (failures m)
        /\ exists instanceID,
            In (ETranslateIptoID node (Region (config m)) instanceID) evs
            /\ if failures m' =? threshold m then
                 r = Return SelfDisabled
                 /\ config m' = with_Enabled false (config m)
                 /\ (exists err,
                        In (EDetachInstance (asg (config m)) instanceID asgSess err) evs)
                 /\ filter isTerminate evs = []
                 /\ dones evs = 1%nat
               else
                 r = Normal tt
                 /\ config m' = config m
                 /\ (exists err,
                        In (ETerminateInstance instanceID (Region (config m)) err) evs)
                 /\ filter isDetach evs = []
                 /\ dones evs = 0%nat)
    /\ (r = Normal tt -> failures m <= threshold m -> forall fuel,
        retryLoop w (S fuel) asgSess m = retryLoop w fuel asgSess m').
Proof.
  assert (Hmain : exists r m' evs,
    retryAttempt w asgSess m = Some (r, m')
    /\ trace m' = trace m ++ evs
    /\ (forall node, In (EVerifyNodeHealth node false) evs ->
        failures m' = incr (failures m)
        /\ exists instanceID,
            In (ETranslateIptoID node (Region (config m)) instanceID) evs
            /\ if failures m' =? threshold m then
                 r = Return SelfDisabled
                 /\ config m' = with_Enabled false (config m)
                 /\ (exists err,
                        In (EDetachInstance (asg (config m)) instanceID asgSess err) evs)
                 /\ filter isTerminate evs = []
                 /\ dones evs = 1%nat
               else
                 r = Normal tt
                 /\ config m' = config m
                 /\ (exists err,
                        In (ETerminateInstance instanceID (Region (config m)) err) evs)
                 /\ filter isDetach evs = []
                 /\ dones evs = 0%nat)).
  { destruct m as [c s t]. unfold retryAttempt, disableClusterScaling. unfold_pass.
    unfold failures, threshold. cbn [config scalingState trace].
    split_goal.
    all: do 3 eexists; (split; [reflexivity|]).
    all: (split; [cbn [trace]; rewrite <- ?app_assoc; cbn [app]; reflexivity|]).
    all: intros node Hin; split_in Hin.
    all: inversion Hin; subst; clear Hin.
    all: (split; [reflexivity|]).
    all: eexists; (split; [cbn; tauto|]).
    all: cbn [NodeFailureCount incrNodeFailureCount with_NodeFailureCount
              scalingState config].
    all: match goal with
         | Hx : (_ =? _) = _ |- _ => rewrite Hx
         end.
    all: unfold dones; cbn.
    all: repeat (split; [first [reflexivity | eexists; tauto]|]).
    all: reflexivity. }
  destruct Hmain as (r & m' & evs & Hrun & Htrace & Hbad).
  exists r, m', evs. repeat (split; [assumption|]).
  intros -> Hle fuel. cbn [retryLoop].
  unfold failures, threshold in Hle. rewrite (proj2 (Z.leb_le _ _) Hle).
  unfold bind. rewrite Hrun. reflexivity.
Qed.

Lemma failed_instance_detached_on_disable_else_terminated_witness :
  exists r m' evs,
    retryAttempt Sample.unhealthy "eu-west-1"%string (Sample.fresh "eu-west-1" 1)
    = Some (r, m')
    /\ trace m' = evs
    /\ In (EVerifyNodeHealth "10.0.0.7"%string false) evs
    /\ r = Return SelfDisabled
    /\ filter isTerminate evs = []
    /\ dones evs = 1%nat.
Proof.
  destruct (failed_instance_detached_on_disable_else_terminated
              Sample.unhealthy "eu-west-1"%string (Sample.fresh "eu-west-1" 1))
    as (r & m' & evs & Hrun & Htrace & Hbad & _).
  exists r, m', evs. split; [exact Hrun|]. split; [exact Htrace|].
  vm_compute in Hrun. injection Hrun as <- <-. cbn in Htrace. subst evs.
  match goal with
  | |- In ?e ?l /\ _ =>
      assert (Hin : In e l) by (cbn; tauto);
      destruct (Hbad _ Hin) as (_ & instanceID & _ & Hr & _ & _ & Ht & Hd)
  end.
  repeat split; assumption.
Defined.

(** ** The retry loop *)

Lemma incr_small (n : Z) : int_min <= n < int_max -> incr n = n + 1.
Proof.
  unfold incr, wrap, int_min, int_max. intros H.
  rewrite Z.mod_small; lia.
Qed.

Lemma retryLoop_step (w : World) (asgSess : Session) (fuel : nat) (m : Mem) :
  failures m <= threshold m ->
  retryLoop w (S fuel) asgSess m
  = (retryAttempt w asgSess ;; retryLoop w fuel asgSess) m.
Proof.
  intros H. cbn [retryLoop]. unfold failures, threshold in H.
  now rewrite (proj2 (Z.leb_le _ _) H).
Qed.

Section Unhealthy.

Variable w : World.
Hypothesis identified : forall h a r, snd (GetMostRecentInstance w h a r) = None.
Hypothesis unhealthy : forall h node, VerifyNodeHealth w h node = false.

(** One turn when every new node is identified and fails its health check. *)
Lemma unhealthy_attempt (asgSess : Session) (m : Mem) :
  int_min <= failures m < int_max ->
  exists r m' evs,
    retryAttempt w asgSess m = Some (r, m')
    /\ trace m' = trace m ++ evs
    /\ attempts evs = 1%nat
    /\ failures m' = failures m + 1
    /\ (if failures m + 1 =? threshold m
        then r = Return SelfDisabled /\ config m' = with_Enabled false (config m)
        else r = Normal tt /\ config m' = config m).
Proof.
  destruct m as [c s t]. unfold failures, threshold. cbn [config scalingState trace].
  intros Hrange.
  unfold retryAttempt, disableClusterScaling. unfold_pass. split_goal.
  all: try match goal with
           | Hx : GetMostRecentInstance w ?h ?a ?r = (_, Some _) |- _ =>
               pose proof (identified h a r) as Hy; rewrite Hx in Hy; discriminate Hy
           | Hx : VerifyNodeHealth w ?h ?n = true |- _ =>
               rewrite unhealthy in Hx; discriminate Hx
           end.
  all: do 3 eexists; (split; [reflexivity|]).
  all: (split; [cbn [trace]; rewrite <- ?app_assoc; cbn [app]; reflexivity|]).
  all: (split; [reflexivity|]).
  all: cbn [NodeFailureCount incrNodeFailureCount with_NodeFailureCount
            scalingState config].
  all: rewrite incr_small in * by assumption.
  all: (split; [reflexivity|]).
  all: try congruence.
  all: split; reflexivity.
Qed.

(** With [k + 1] failures to go until the threshold, the loop makes [k + 1]
    attempts and then disables cluster scaling. *)
Lemma unhealthy_loop (asgSess : Session) : forall (k fuel : nat) (m : Mem),
  int_min <= failures m ->
  failures m + Z.of_nat (S k) = threshold m ->
  threshold m <= int_max ->
  (S k <= fuel)%nat ->
  exists m' evs,
    retryLoop w fuel asgSess m = Some (Return SelfDisabled, m')
    /\ trace m' = trace m ++ evs
    /\ attempts evs = S k
    /\ failures m' = threshold m
    /\ config m' = with_Enabled false (config m).
Proof.
  induction k as [|k IH]; intros fuel m Hlo Hgap Hhi Hfuel.
  - destruct fuel as [|fuel]; [lia|].
    rewrite retryLoop_step by lia.
    destruct (unhealthy_attempt asgSess m) as (r & m' & evs & Hrun & Ht & Ha & Hf & Hcase);
      [lia|].
    replace (failures m + 1 =? threshold m) with true in Hcase
      by (symmetry; apply Z.eqb_eq; lia).
    destruct Hcase as [-> Hc]. unfold bind. rewrite Hrun.
    exists m', evs. repeat split; auto. lia.
  - destruct fuel as [|fuel]; [lia|].
    rewrite retryLoop_step by lia.
    destruct (unhealthy_attempt asgSess m) as (r & m1 & evs & Hrun & Ht & Ha & Hf & Hcase);
      [lia|].
    replace (failures m + 1 =? threshold m) with false in Hcase
      by (symmetry; apply Z.eqb_neq; lia).
    destruct Hcase as [-> Hc]. unfold bind. rewrite Hrun.
    assert (Hth : threshold m1 = threshold m) by (unfold threshold; now rewrite Hc).
    destruct (IH fuel m1) as (m' & evs' & Hloop & Ht' & Ha' & Hf' & Hc');
      try rewrite Hth; try lia.
    exists m', (evs ++ evs'). rewrite Hloop. split; [reflexivity|].
    split; [rewrite Ht', Ht; now rewrite app_assoc|].
    split; [rewrite attempts_app, Ha, Ha'; reflexivity|].
    split; [congruence|]. now rewrite Hc', Hc.
Qed.

End Unhealthy.

(** ** From the start of a pass to its retry loop *)

Lemma retryLoopEntry_sound (w : World) (m m1 : Mem) :
  retryLoopEntry w m = Some m1 -> entersRetryLoop w m m1.
Proof.
  unfold retryLoopEntry. intros H.
  destruct (evaluate w m) as [[[[[capacity [|]] [e|]]|site] ma]|] eqn:He;
    try discriminate H.
  destruct (prepare w ma) as [[[asgSess|site] mb]|] eqn:Hp; try discriminate H.
  destruct (ScalingDirection_ capacity) eqn:Hd; try discriminate H.
  destruct (requestScaleOut w (enabled m) asgSess mb) as [[[[]|site] m2]|] eqn:Hr;
    try discriminate H.
  inversion H; subst. exists capacity, ma, asgSess, mb. auto.
Qed.


(** Before the retry loop, a pass does not touch the scaling state, and of
    the configuration it writes the region at most; it gets to the loop only
    with cluster scaling enabled. *)
Lemma entersRetryLoop_inv (w : World) (m m1 : Mem) :
  entersRetryLoop w m m1 ->
  enabled m = true
  /\ scalingState m1 = scalingState m
  /\ ClusterScaling_ (config m1) = ClusterScaling_ (config m)
  /\ exists evs, trace m1 = trace m ++ evs /\ attempts evs = 0%nat.
Proof.
  destruct m as [c s t].
  intros (capacity & ma & asgSess & mb & He & Hp & _ & Hr).
  unfold evaluate in He. unfold prepare, cooldownGate in Hp.
  unfold requestScaleOut, enabled in *. unfold_pass.
  split_run He; split_run Hp; split_run Hr.
  all: cbn; rewrite <- ?app_assoc; cbn [app].
  all: repeat (split; [first [reflexivity|assumption]|]).
  all: eexists; split; reflexivity.
Qed.

(** A pass that got to its retry loop ends as the loop ends; when the loop
    gives up, the pass runs to its end. *)
Lemma clusterScaling_through_loop (w : World) (fuel : nat) (m m1 : Mem) :
  entersRetryLoop w m m1 ->
  exists asgSess,
    forall r m2,
      retryLoop w fuel asgSess m1 = Some (r, m2) ->
      clusterScaling w fuel m
      = match r with
        | Return site => Some (Return site, m2)
        | Normal _ =>
            Some (Return EndOfPass,
                  mkMem (config m2) (scalingState m2)
                    ((trace m2 ++ [EDone]) ++ [EIncrCounter scale_out_success]))
        end.
Proof.
  intros (capacity & ma & asgSess & mb & He & Hp & Hd & Hr).
  exists asgSess. intros r m2 Hloop.
  unfold clusterScaling, scaleOut, bind, getConfig.
  rewrite He. cbn [is_nil negb orb]. rewrite Hp, Hd. cbn [direction_eqb].
  unfold enabled in Hr. rewrite Hr, Hloop.
  destruct r as [[]|site]; reflexivity.
Qed.

(** C1, as the code has it: in a pass that gets to its retry loop with a
    failure count of 0 and a retry threshold [T] of at least 1, and in which
    every new node is identified but fails its health check, exactly [T]
    attempts are made: the [T]-th failed check brings the count to [T],
    disables cluster scaling and ends the pass. *)
Theorem attempts_until_self_disable (w : World) (fuel : nat) (m m1 : Mem) :
  entersRetryLoop w m m1 ->
  failures m = 0 ->
  1 <= threshold m <= int_max ->
  (forall h a r, snd (GetMostRecentInstance w h a r) = None) ->
  (forall h node, VerifyNodeHealth w h node = false) ->
  (Z.to_nat (threshold m) <= fuel)%nat ->
  exists m' evs,
    clusterScaling w fuel m = Some (Return SelfDisabled, m')
    /\ trace m' = trace m ++ evs
    /\ attempts evs = Z.to_nat (threshold m)
    /\ failures m' = threshold m
    /\ enabled m' = false.
Proof.
  intros Henter Hzero HT Hident Hbad Hfuel.
  destruct (entersRetryLoop_inv w m m1 Henter) as (_ & Hs & Hc & pre & Hpre & Hnone).
  destruct (clusterScaling_through_loop w fuel m m1 Henter) as (asgSess & Hpass).
  assert (Hf1 : failures m1 = 0) by (unfold failures in *; now rewrite Hs).
  assert (Ht1 : threshold m1 = threshold m) by (unfold threshold; now rewrite Hc).
  destruct (unhealthy_loop w Hident Hbad asgSess
              (Nat.pred (Z.to_nat (threshold m))) fuel m1)
    as (m' & evs & Hloop & Ht & Ha & Hf & Hcfg); try rewrite Hf1; try rewrite Ht1;
    unfold int_min; try lia.
  exists m', (pre ++ evs). rewrite (Hpass _ _ Hloop). split; [reflexivity|].
  split; [rewrite Ht, Hpre; now rewrite app_assoc|].
  split; [rewrite attempts_app, Hnone, Ha; lia|].
  split; [congruence|].
  unfold enabled. now rewrite Hcfg.
Qed.

Lemma attempts_until_self_disable_witness :
  exists m' evs,
    clusterScaling Sample.unhealthy 2 (Sample.fresh "eu-west-1" 2)
    = Some (Return SelfDisabled, m')
    /\ trace m' = trace (Sample.fresh "eu-west-1" 2) ++ evs
    /\ attempts evs = Z.to_nat (threshold (Sample.fresh "eu-west-1" 2))
    /\ failures m' = threshold (Sample.fresh "eu-west-1" 2)
    /\ enabled m' = false.
Proof.
  assert (Henter : exists m1,
             entersRetryLoop Sample.unhealthy (Sample.fresh "eu-west-1" 2) m1).
  { eexists. apply retryLoopEntry_sound. vm_compute. reflexivity. }
  destruct Henter as (m1 & Henter).
  apply (attempts_until_self_disable Sample.unhealthy 2
           (Sample.fresh "eu-west-1" 2) m1 Henter).
  - reflexivity.
  - unfold int_max. cbn. lia.
  - intros h a r. reflexivity.
  - intros h node. reflexivity.
  - cbn. lia.
Defined.

(** The claim C1 as it was written fails: with a retry threshold of 2 and
    nodes that never get healthy, the pass disables cluster scaling after 2
    attempts, not after 3. *)
Lemma self_disable_after_two_attempts :
  clusterScaling Sample.unhealthy 3 (Sample.fresh "eu-west-1" 2)
  = Some (Return SelfDisabled,
          mkMem (with_Enabled false (Sample.cfg "eu-west-1" 2))
            (mkScalingState 2 0) Sample.twoAttempts)
  /\ threshold (Sample.fresh "eu-west-1" 2) = 2
  /\ attempts Sample.twoAttempts = 2%nat
  /\ attempts Sample.twoAttempts
     <> Z.to_nat (threshold (Sample.fresh "eu-west-1" 2) + 1).
Proof.
  split; [vm_compute; reflexivity|].
  repeat split; try reflexivity. vm_compute. discriminate.
Qed.

(** ** Passing the threshold *)

(** The claim C2 fails on the code: when no new node can be identified, the
    failure count passes a retry threshold of 1 while cluster scaling stays
    enabled, and the pass even counts a success; and with a retry threshold
    of 0 a node that fails its health check brings the count to 1 without
    disabling cluster scaling either. *)
Theorem threshold_passed_without_self_disable :
  (clusterScaling Sample.unidentified 2 (Sample.fresh "eu-west-1" 1)
   = Some (Return EndOfPass,
           mkMem (Sample.cfg "eu-west-1" 1) (mkScalingState 2 0)
             Sample.neverIdentified)
   /\ ClusterScaling.RetryThreshold (ClusterScaling_ (Sample.cfg "eu-west-1" 1)) = 1
   /\ ClusterScaling.Enabled (ClusterScaling_ (Sample.cfg "eu-west-1" 1)) = true
   /\ successes Sample.neverIdentified = 1%nat)
  /\ (clusterScaling Sample.unhealthy 1 (Sample.fresh "eu-west-1" 0)
      = Some (Return EndOfPass,
              mkMem (Sample.cfg "eu-west-1" 0) (mkScalingState 1 0)
                Sample.zeroThreshold)
      /\ ClusterScaling.RetryThreshold (ClusterScaling_ (Sample.cfg "eu-west-1" 0)) = 0
      /\ ClusterScaling.Enabled (ClusterScaling_ (Sample.cfg "eu-west-1" 0)) = true
      /\ successes Sample.zeroThreshold = 1%nat).
Proof.
  split; (split; [vm_compute; reflexivity|]); repeat split; reflexivity.
Qed.

(** ** The failure count over the life of the runner *)















(** * More of the runner *)

(** ** The books of the retry loop *)

Lemma retryLoop_accounts (w : World) (asgSess : Session) (fuel : nat) :
  forall m r m',
    retryLoop w fuel asgSess m = Some (r, m') ->
    exists evs, trace m' = trace m ++ evs /\ loop_accounts r m' evs.
Proof.
  induction fuel as [|fuel IH]; intros [c s t] r m' H.
  - cbn in H. destruct (_ <=? _) eqn:E; [discriminate|].
    inversion H; subst. exists []. cbn. rewrite app_nil_r.
    repeat split; reflexivity.
  - cbn [retryLoop] in H. cbn [scalingState config] in H.
    destruct (_ <=? _) eqn:E.
    2:{ inversion H; subst. exists []. cbn. rewrite app_nil_r.
        repeat split; reflexivity. }
    unfold retryAttempt, disableClusterScaling in H. unfold_pass.
    split_run H.
    all: try (apply IH in H; destruct H as (evs & Ht & Ha1 & Ha2 & Ha3 & Ha4 & Ha5);
              cbn [trace] in Ht;
              rewrite <- ?app_assoc in Ht; cbn [app] in Ht;
              eexists; split; [exact Ht|]).
    all: try (eexists; split;
              [cbn [trace]; rewrite <- ?app_assoc; cbn [app]; reflexivity|]).
    all: unfold loop_accounts, occurrences, lastEvent in *; cbn in *.
    all: repeat split; try assumption; try reflexivity; try lia.
    all: rewrite <- ?app_assoc; reflexivity.
Qed.

Lemma lastNow_app (a b : list Event) :
  lastNow (a ++ b)
  = match lastNow b with Some u => Some u | None => lastNow a end.
Proof.
  induction a as [|e a IH]; cbn.
  - destruct (lastNow b); reflexivity.
  - destruct e; try exact IH. rewrite IH. destruct (lastNow b); reflexivity.
Qed.

Lemma afterDone_app (a b : list Event) :
  afterDone (a ++ b)
  = match afterDone a with Some rest => Some (rest ++ b) | None => afterDone b end.
Proof.
  induction a as [|e a IH]; cbn; [reflexivity|].
  destruct (isDone e); [reflexivity|exact IH].
Qed.

Lemma occurrences_app (p : Event -> bool) (a b : list Event) :
  occurrences p (a ++ b) = (occurrences p a + occurrences p b)%nat.
Proof. unfold occurrences. now rewrite filter_app, List.length_app. Qed.

(** The retry loop makes none of the calls that it cannot make. *)
Lemma loop_events_none (p : Event -> bool) (evs : list Event) :
  (forall e, p e = true -> loopEvent e = false) ->
  Forall (fun e => loopEvent e = true) evs ->
  occurrences p evs = 0%nat.
Proof.
  intros Hp H. unfold occurrences.
  induction H as [|e evs He _ IH]; [reflexivity|].
  cbn. destruct (p e) eqn:E; [|exact IH].
  apply Hp in E. congruence.
Qed.

(** Bring the events of a finished run into the open, with the summary and
    the books of its retry loop. *)
Ltac open_run Htrace :=
  cbn [trace config scalingState] in *;
  try match goal with
      | H : retryLoop _ _ _ _ = Some _ |- _ =>
          let Hacc := fresh "Hacc" in
          let evs := fresh "loopEvs" in
          let evs' := fresh "loopEvs" in
          let Ht := fresh "Hloop" in
          let Ht' := fresh "Hloop" in
          let Hf := fresh "Hkinds" in
          let Hr := fresh "Hexit" in
          pose proof (retryLoop_accounts _ _ _ _ _ _ H) as Hacc;
          apply retryLoop_post in H;
          destruct H as (evs & Ht & Hf & Hr);
          destruct Hacc as (evs' & Ht' & Hacc);
          rewrite Ht in Ht'; apply app_inv_head in Ht'; subst evs';
          cbn [trace config scalingState] in Ht, Hr;
          first [rewrite Ht in Htrace | cbn [trace] in Htrace; rewrite Ht in Htrace]
      end;
  rewrite <- ?app_assoc in Htrace; cbn [app] in Htrace;
  apply app_inv_head in Htrace; subst.

(** Case analysis on the way out of the retry loop. *)
Ltac loop_exit :=
  try match goal with
      | Hx : match ?site with NotLeader => _ | _ => _ end |- _ =>
          destruct site; try contradiction
      end;
  repeat match goal with
         | Hx : _ /\ _ |- _ => destruct Hx
         end.

(** The evaluation asks for one direction. *)
Ltac one_direction :=
  try match goal with
      | H1 : direction_eqb ?d ScalingDirectionOut = true,
        H2 : direction_eqb ?d ScalingDirectionIn = true |- _ =>
          destruct d; discriminate
      end.

(** ** The done signal *)

(** X1: a cluster pass that returns has signalled on its [done] channel
    exactly once; after the signal it does nothing but increment the
    [cluster.scale_out_success] counter, and that exactly when it ran to the
    end of [clusterScaling]. *)
Theorem cluster_pass_signals_done_once (w : World) (fuel : nat) (m : Mem)
    (r : Flow unit) (m' : Mem) (evs : list Event) :
  clusterScaling w fuel m = Some (r, m') ->
  trace m' = trace m ++ evs ->
  exists site,
    r = Return site
    /\ dones evs = 1%nat
    /\ afterDone evs
       = Some (if isEndOfPass site then [EIncrCounter scale_out_success] else []).
Proof.
  destruct m as [c s t]. intros H Htrace.
  unfold_cluster. unfold_pass. split_run H.
  all: open_run Htrace.
  all: unfold loop_accounts in *; loop_exit.
  all: eexists; (split; [reflexivity|]).
  all: unfold dones in *; cbn;
       rewrite ?filter_app, ?List.length_app, ?afterDone_app; cbn.
  all: repeat match goal with
              | Hx : afterDone _ = _ |- _ => rewrite Hx
              | Hx : List.length (filter isDone _) = _ |- _ => rewrite Hx
              end.
  all: split; reflexivity.
Qed.

Lemma cluster_pass_signals_done_once_witness :
  dones Sample.twoAttempts = 1%nat /\ afterDone Sample.twoAttempts = Some [].
Proof.
  destruct (cluster_pass_signals_done_once Sample.unhealthy 2
              (Sample.fresh "eu-west-1" 2) (Return SelfDisabled)
              (mkMem (with_Enabled false (Sample.cfg "eu-west-1" 2))
                 (mkScalingState 2 0) Sample.twoAttempts)
              Sample.twoAttempts ltac:(vm_compute; reflexivity) eq_refl)
    as (site & Hsite & Hd & Ha).
  injection Hsite as <-. split; assumption.
Defined.

(** ** Failed nodes *)

Ltac count_events :=
  unfold occurrences in *; cbn;
  rewrite ?filter_app, ?List.length_app; cbn.



(** ** One scaling action per pass *)





(** ** The timestamp of the last scaling event *)

(** X4: [LastScalingEvent] is the time of the last success.  When a pass
    returns after a healthy node or after a [ScaleInCluster] without error,
    [LastScalingEvent] is the last reading of the clock in that pass; a pass
    with neither leaves it as it was. *)
Theorem last_scaling_event_is_time_of_success (w : World) (fuel : nat) (m : Mem)
    (r : Flow unit) (m' : Mem) (evs : list Event) :
  clusterScaling w fuel m = Some (r, m') ->
  trace m' = trace m ++ evs ->
  (r = Return NodeHealthy \/ (0 < occurrences isScaleInOk evs)%nat ->
   lastNow evs = Some (lastEvent m'))
  /\ (r <> Return NodeHealthy -> occurrences isScaleInOk evs = 0%nat ->
      lastEvent m' = lastEvent m).
Proof.
  destruct m as [c s t]. intros H Htrace.
  unfold_cluster. unfold_pass. split_run H.
  all: open_run Htrace.
  all: one_direction.
  all: try match goal with
           | Hk : Forall _ ?l |- _ =>
               pose proof (loop_events_none isScaleInOk l
                             ltac:(intros []; cbn; congruence) Hk)
           end.
  all: unfold loop_accounts in *; loop_exit.
  all: unfold lastEvent in *; cbn [scalingState LastScalingEvent] in *.
  all: count_events; rewrite ?lastNow_app; cbn.
  all: repeat match goal with
              | Hx : lastNow _ = _ |- _ => rewrite Hx
              end.
  all: split; [intros [Hr|Hr] | intros Hr1 Hr2].
  all: first [discriminate | congruence | lia | reflexivity
             | rewrite <- ?app_assoc; reflexivity].
Qed.

Lemma last_scaling_event_is_time_of_success_witness :
  lastNow Sample.joined = Some 100.
Proof.
  exact (proj1 (last_scaling_event_is_time_of_success Sample.healthy 1
                  (Sample.fresh "eu-west-1" 2) (Return NodeHealthy)
                  (mkMem (Sample.cfg "eu-west-1" 2) (mkScalingState 0 100)
                     Sample.joined)
                  Sample.joined ltac:(vm_compute; reflexivity) eq_refl)
           (or_introl eq_refl)).
Defined.

(** ** Passes that do nothing *)

(** X5: with [ClusterScaling.Enabled] false at its start, a cluster pass is
    a dry run whatever the collaborators answer: it returns without a turn of
    the retry loop, makes no call that changes a collaborator, and leaves
    the scaling state and the flag as they were. *)
Theorem disabled_cluster_scaling_is_dry_run (w : World) (fuel : nat) (m : Mem) :
  enabled m = false ->
  exists site m' evs,
    clusterScaling w fuel m = Some (Return site, m')
    /\ trace m' = trace m ++ evs
    /\ filter mutating evs = []
    /\ scalingState m' = scalingState m
    /\ enabled m' = false
    /\ occurrences isIdentify evs = 0%nat.
Proof.
  destruct m as [c s t]. unfold enabled. cbn [config scalingState trace]. intros Hen.
  unfold_cluster. unfold_pass. cbn [config scalingState trace]. rewrite Hen.
  split_goal.
  all: do 3 eexists; (split; [reflexivity|]); cbn; rewrite <- ?app_assoc; cbn.
  all: (split; [reflexivity|]); cbn; auto.
Qed.

Lemma disabled_cluster_scaling_is_dry_run_witness :
  exists site m' evs,
    clusterScaling Sample.unhealthy 0 Sample.disabled = Some (Return site, m')
    /\ trace m' = trace Sample.disabled ++ evs
    /\ filter mutating evs = []
    /\ scalingState m' = scalingState Sample.disabled
    /\ enabled m' = false
    /\ occurrences isIdentify evs = 0%nat.
Proof.
  exact (disabled_cluster_scaling_is_dry_run Sample.unhealthy 0 Sample.disabled
           eq_refl).
Defined.

(** X6: when [ScaleOutCluster] returns an error the pass ends there: it
    returns at once, that call is its only call that changes a collaborator,
    no instance is looked up, and the scaling state and the enabled flag are
    as before. *)
Theorem refused_scale_out_ends_the_pass (w : World) (fuel : nat) (m : Mem)
    (r : Flow unit) (m' : Mem) (evs : list Event) :
  clusterScaling w fuel m = Some (r, m') ->
  trace m' = trace m ++ evs ->
  forall asg sess err,
    In (EScaleOutCluster asg sess (Some err)) evs ->
    r = Return ScaleOutFailed
    /\ filter mutating evs = [EScaleOutCluster asg sess (Some err)]
    /\ occurrences isIdentify evs = 0%nat
    /\ scalingState m' = scalingState m
    /\ enabled m' = enabled m.
Proof.
  destruct m as [c s t]. intros H Htrace.
  unfold_cluster. unfold_pass. split_run H.
  all: open_run Htrace.
  all: one_direction.
  all: intros asg0 sess0 err0 Hin; split_in Hin; try not_in_loop Hin.
  all: inversion Hin; subst; clear Hin.
  all: repeat split; reflexivity.
Qed.

Lemma refused_scale_out_ends_the_pass_witness :
  filter mutating Sample.refused
  = [EScaleOutCluster "workers"%string "eu-west-1"%string
       (Some "capacity limit"%string)]
  /\ occurrences isIdentify Sample.refused = 0%nat.
Proof.
  destruct (refused_scale_out_ends_the_pass Sample.refusing 1
              (Sample.fresh "eu-west-1" 2) (Return ScaleOutFailed)
              (mkMem (Sample.cfg "eu-west-1" 2) (mkScalingState 0 0) Sample.refused)
              Sample.refused ltac:(vm_compute; reflexivity) eq_refl
              "workers"%string "eu-west-1"%string "capacity limit"%string
              ltac:(cbn; tauto))
    as (_ & Hm & Hi & _).
  split; assumption.
Defined.

(** X7: a pass with nothing to scale changes nothing.  When the capacity
    evaluation asks for no scaling or fails, the pass makes no call that
    changes a collaborator, builds no AWS client and leaves the scaling
    state; when a scale-in finds no node to remove, an empty id or address,
    it also changes nothing and runs to the end of the pass. *)
Theorem nothing_to_scale_changes_nothing (w : World) (fuel : nat) (m : Mem)
    (r : Flow unit) (m' : Mem) (evs : list Event) :
  clusterScaling w fuel m = Some (r, m') ->
  trace m' = trace m ++ evs ->
  (forall capacity scale err,
      In (EEvaluateClusterCapacity capacity scale err) evs ->
      scale = false \/ err <> None ->
      filter mutating evs = []
      /\ occurrences isNewAsg evs = 0%nat
      /\ scalingState m' = scalingState m)
  /\ (forall capacity nodeID nodeIP,
      In (ELeastAllocatedNode capacity nodeID nodeIP) evs ->
      nodeID = ""%string \/ nodeIP = ""%string ->
      filter mutating evs = []
      /\ scalingState m' = scalingState m
      /\ r = Return EndOfPass).
Proof.
  destruct m as [c s t]. intros H Htrace.
  unfold_cluster. unfold_pass. split_run H.
  all: open_run Htrace.
  all: one_direction.
  all: split.
  all: try (intros capacity scale err Hin Hor; split_in Hin; try not_in_loop Hin;
            inversion Hin; subst; clear Hin;
            destruct Hor; try congruence; repeat split; reflexivity).
  all: intros capacity nodeID nodeIP Hin Hor; split_in Hin; try not_in_loop Hin.
  all: inversion Hin; subst; clear Hin.
  all: try (destruct Hor; subst; cbn in *; discriminate).
  all: repeat split; reflexivity.
Qed.

Lemma nothing_to_scale_changes_nothing_witness :
  filter mutating Sample.discovered = []
  /\ occurrences isNewAsg Sample.discovered = 0%nat.
Proof.
  destruct (proj1 (nothing_to_scale_changes_nothing Sample.discovering 0
                     (Sample.fresh "" 2) (Return EndOfPass)
                     (mkMem (Sample.cfg "eu-west-1" 2) (mkScalingState 0 0)
                        Sample.discovered)
                     Sample.discovered ltac:(vm_compute; reflexivity) eq_refl)
              (mkClusterCapacity ScalingDirectionNone) false None
              ltac:(cbn; tauto) (or_introl eq_refl))
    as (Hm & Hn & _).
  split; assumption.
Defined.

(** ** The retry loop ends *)

(** A turn of the retry loop always returns, after one call to
    [GetMostRecentInstance]; when the loop goes on afterwards, the failure
    count is one higher and the configuration is as before. *)
Lemma retryAttempt_turn (w : World) (asgSess : Session) (m : Mem) :
  exists r m' evs,
    retryAttempt w asgSess m = Some (r, m')
    /\ trace m' = trace m ++ evs
    /\ occurrences isIdentify evs = 1%nat
    /\ match r with
       | Normal _ => failures m' = incr (failures m) /\ config m' = config m
       | Return _ => True
       end.
Proof.
  destruct m as [c s t]. unfold retryAttempt, disableClusterScaling. unfold_pass.
  unfold failures. cbn [config scalingState trace].
  split_goal.
  all: do 3 eexists; (split; [reflexivity|]).
  all: (split; [cbn [trace]; rewrite <- ?app_assoc; cbn [app]; reflexivity|]).
  all: split; [reflexivity|]; cbn; auto.
Qed.

Lemma retryLoop_terminates (w : World) (asgSess : Session) :
  forall (k fuel : nat) (m : Mem),
    int_min <= failures m ->
    threshold m < int_max ->
    threshold m - failures m < Z.of_nat k ->
    (k <= fuel)%nat ->
    exists r m' evs,
      retryLoop w fuel asgSess m = Some (r, m')
      /\ trace m' = trace m ++ evs
      /\ (occurrences isIdentify evs <= k)%nat.
Proof.
  induction k as [|k IH]; intros fuel m Hlo Hhi Hgap Hfuel.
  - exists (Normal tt), m, []. rewrite app_nil_r.
    destruct fuel; cbn; unfold failures, threshold in *;
      rewrite (proj2 (Z.leb_gt _ _)) by lia; repeat split; cbn; lia.
  - destruct (Z.leb_spec (failures m) (threshold m)) as [Hle|Hgt].
    2:{ exists (Normal tt), m, []. rewrite app_nil_r.
        destruct fuel; cbn; unfold failures, threshold in *;
          rewrite (proj2 (Z.leb_gt _ _)) by lia; repeat split; cbn; lia. }
    destruct fuel as [|fuel]; [lia|].
    rewrite retryLoop_step by exact Hle. unfold bind.
    destruct (retryAttempt_turn w asgSess m) as (r & m1 & evs & Hrun & Ht & Hone & Hr).
    rewrite Hrun. destruct r as [[]|site].
    + destruct Hr as [Hf Hc].
      rewrite incr_small in Hf by lia.
      assert (Hth : threshold m1 = threshold m) by (unfold threshold; now rewrite Hc).
      destruct (IH fuel m1) as (r' & m' & evs' & Hloop & Ht' & Hcount);
        try rewrite Hth; try lia.
      exists r', m', (evs ++ evs'). split; [exact Hloop|].
      split; [rewrite Ht', Ht; now rewrite app_assoc|].
      rewrite occurrences_app. lia.
    + exists (Return site), m1, evs. split; [reflexivity|].
      split; [exact Ht|]. lia.
Qed.

(** X8: the retries are bounded.  With a retry threshold below the largest
    [int], a cluster pass returns whatever the collaborators answer, after at
    most [RetryThreshold - NodeFailureCount + 1] calls to
    [GetMostRecentInstance]. *)
Theorem cluster_pass_ends_within_threshold (w : World) (fuel : nat) (m : Mem) :
  int_min <= failures m ->
  threshold m < int_max ->
  (Z.to_nat (threshold m - failures m + 1) <= fuel)%nat ->
  exists site m' evs,
    clusterScaling w fuel m = Some (Return site, m')
    /\ trace m' = trace m ++ evs
    /\ (occurrences isIdentify evs <= Z.to_nat (threshold m - failures m + 1))%nat.
Proof.
  destruct m as [c s t]. unfold failures, threshold.
  cbn [config scalingState trace]. intros Hlo Hhi Hfuel.
  unfold_cluster. unfold_pass. split_goal.
  all: try match goal with
           | Hx : retryLoop ?w0 ?f ?sess ?m1 = _ |- _ =>
               let Hl := fresh "Hl" in
               pose proof (retryLoop_terminates w0 sess
                             (Z.to_nat (threshold m1 - failures m1 + 1)) f m1) as Hl;
               unfold failures, threshold in Hl;
               cbn [config scalingState trace with_Region ClusterScaling_] in Hl;
               specialize (Hl ltac:(lia) ltac:(lia) ltac:(lia) ltac:(lia));
               destruct Hl as (r' & m' & evs' & Hl & Ht' & Hcount);
               rewrite Hx in Hl; try discriminate Hl;
               inversion Hl; subst; clear Hl; cbn [trace] in Ht'
           end.
  all: do 3 eexists; (split; [reflexivity|]).
  all: cbn [trace]; try rewrite Ht'; rewrite <- ?app_assoc; cbn [app].
  all: (split; [reflexivity|]).
  all: count_events; lia.
Qed.

Lemma cluster_pass_ends_within_threshold_witness :
  exists site m' evs,
    clusterScaling Sample.unidentified 2 (Sample.fresh "eu-west-1" 1)
    = Some (Return site, m')
    /\ trace m' = trace (Sample.fresh "eu-west-1" 1) ++ evs
    /\ (occurrences isIdentify evs <= 2)%nat.
Proof.
  apply (cluster_pass_ends_within_threshold Sample.unidentified 2
           (Sample.fresh "eu-west-1" 1)).
  - unfold int_min. cbn. lia.
  - unfold int_max. cbn. lia.
  - cbn. lia.
Defined.

(** ** The job loop *)

Lemma countGroups_trace (job : JobScalingPolicy.t) (groups : list GroupScalingPolicy) :
  forall i m,
    countGroups job groups i m
    = Some (Normal
              (i + if JobScalingPolicy.Enabled job
                      && JobScaling.Enabled (JobScaling_ (config m))
                   then Z.of_nat (List.length (filter needsScaling groups)) else 0),
            mkMem (config m) (scalingState m)
              (trace m ++ map (groupLog (config m) job) (filter needsScaling groups))).
Proof.
  induction groups as [|g groups IH]; intros i [c s t].
  - cbn. rewrite app_nil_r. destruct (_ && _); now rewrite Z.add_0_r.
  - cbn [countGroups filter]. destruct (needsScaling g) eqn:Hg.
    + unfold_pass. cbn [config scalingState trace map].
      destruct (JobScalingPolicy.Enabled job && JobScaling.Enabled (JobScaling_ c)) eqn:He.
      all: cbv beta iota; cbn [config scalingState trace].
      all: rewrite IH; cbn [config scalingState trace]; rewrite He.
      all: rewrite <- app_assoc; cbn [app List.length].
      all: unfold groupLog; rewrite He.
      * rewrite Nat2Z.inj_succ.
        replace (i + 1 + Z.of_nat (List.length (filter needsScaling groups)))
          with (i + Z.succ (Z.of_nat (List.length (filter needsScaling groups))))
          by lia.
        reflexivity.
      * reflexivity.
    + exact (IH i (mkMem c s t)).
Qed.

Lemma scaleJob_trace (job : JobScalingPolicy.t) (m : Mem) :
  scaleJob job m
  = Some (Normal tt,
          mkMem (config m) (scalingState m) (trace m ++ jobEvents (config m) job)).
Proof.
  unfold scaleJob, bind. rewrite countGroups_trace. unfold jobEvents, eligible.
  destruct (JobScalingPolicy.Enabled job && JobScaling.Enabled (JobScaling_ (config m))).
  - rewrite Z.add_0_l, needsScaling_count, andb_true_r.
    destruct (existsb _ _); cbn; unfold emit, ret; cbn;
      rewrite <- ?app_assoc, ?app_nil_r; reflexivity.
  - rewrite andb_false_r. cbn. unfold ret. now rewrite app_nil_r.
Qed.

Lemma scaleJobs_trace (resp : list JobScalingPolicy.t) : forall m,
  scaleJobs resp m
  = Some (Normal tt,
          mkMem (config m) (scalingState m)
            (trace m ++ flat_map (jobEvents (config m)) resp)).
Proof.
  induction resp as [|job resp IH]; intros m.
  - cbn. rewrite app_nil_r. destruct m; reflexivity.
  - cbn [scaleJobs flat_map]. unfold bind. rewrite scaleJob_trace, IH.
    cbn [config scalingState trace]. now rewrite <- app_assoc.
Qed.

Lemma jobEvents_kinds (c : Config) (resp : list JobScalingPolicy.t) :
  Forall (fun e => jobEvent e = true) (flat_map (jobEvents c) resp).
Proof.
  apply Forall_forall. intros e He. apply in_flat_map in He.
  destruct He as (job & _ & He). unfold jobEvents in He.
  apply in_app_or in He. destruct He as [He|He].
  - apply in_map_iff in He. destruct He as (g & <- & _). reflexivity.
  - destruct (eligible c job); [|contradiction].
    destruct He as [<-|[]]. reflexivity.
Qed.

Lemma jobEvents_calls (c : Config) (resp : list JobScalingPolicy.t) :
  jobScaleCalls (flat_map (jobEvents c) resp) = filter (eligible c) resp.
Proof.
  induction resp as [|job resp IH]; [reflexivity|].
  cbn [flat_map filter]. rewrite jobScaleCalls_app, IH. unfold jobEvents.
  rewrite jobScaleCalls_app.
  assert (Hlogs : forall gs, jobScaleCalls (map (groupLog c job) gs) = []).
  { induction gs as [|g gs IHg]; [reflexivity|exact IHg]. }
  rewrite Hlogs. destruct (eligible c job); reflexivity.
Qed.

(** X9: the trace of a job pass that gets its policies.  After the
    leadership check, the fetch and the evaluation, each job adds, in the
    order of the evaluated list, one log line for each of its groups that is
    to be scaled out or in, a request line when scaling is on for the job and
    in the configuration and a suppression line otherwise, and then its one
    [JobScale] call if it is eligible.  Nothing else happens; the
    configuration and the scaling state are untouched. *)
Theorem job_pass_trace (w : World) (m : Mem) (resp : list JobScalingPolicy.t) :
  LeaderCheck w (trace m) = true ->
  GetJobScalingPolicies w (trace m ++ [ELeaderCheck true]) (config m) = (resp, None) ->
  let evaluated :=
    EvaluateJobScaling w
      (trace m ++ [ELeaderCheck true; EGetJobScalingPolicies resp None]) resp in
  jobScaling w m
  = Some (Return EndOfJobPass,
          mkMem (config m) (scalingState m)
            (trace m
             ++ [ELeaderCheck true; EGetJobScalingPolicies resp None;
                 EEvaluateJobScaling evaluated]
             ++ flat_map (jobEvents (config m)) evaluated)).
Proof.
  intros Hlead Hget evaluated. subst evaluated. destruct m as [c s t].
  cbn [config scalingState trace] in *.
  unfold jobScaling. unfold_pass. cbn. rewrite Hlead. cbn. rewrite Hget. cbn.
  rewrite <- !app_assoc. cbn [app]. rewrite scaleJobs_trace. cbn.
  now rewrite <- !app_assoc.
Qed.

Lemma job_pass_trace_witness :
  jobScaling Sample.jobs (Sample.fresh "eu-west-1" 2)
  = Some (Return EndOfJobPass,
          mkMem (Sample.cfg "eu-west-1" 2) (mkScalingState 0 0) Sample.submitted).
Proof.
  exact (job_pass_trace Sample.jobs (Sample.fresh "eu-west-1" 2)
           [Sample.web; Sample.batch] eq_refl eq_refl).
Defined.

(** X10: a job pass always returns, and it only checks the leadership,
    fetches and evaluates the policies, logs and calls [JobScale]: it never
    calls the AWS client, reads the clock or signals [done].  When it is not
    the leader or the fetch fails it evaluates and submits nothing, a fetch
    error ending the pass; and with job scaling off in the configuration it
    submits no job whatever the policies say. *)
Theorem job_pass_footprint (w : World) (m : Mem) :
  exists site evs,
    jobScaling w m
    = Some (Return site, mkMem (config m) (scalingState m) (trace m ++ evs))
    /\ Forall (fun e => jobEvent e = true) evs
    /\ (site <> EndOfJobPass ->
        jobScaleCalls evs = [] /\ occurrences isEvaluateJobs evs = 0%nat)
    /\ (LeaderCheck w (trace m) = true ->
        snd (GetJobScalingPolicies w (trace m ++ [ELeaderCheck true]) (config m))
        <> None ->
        site = JobPoliciesFailed)
    /\ (JobScaling.Enabled (JobScaling_ (config m)) = false -> jobScaleCalls evs = []).
Proof.
  destruct m as [c s t]. unfold jobScaling. unfold_pass. cbn.
  destruct (LeaderCheck w t); cbn.
  2:{ do 2 eexists. rewrite <- app_assoc. split; [reflexivity|].
      split; [repeat constructor|]. split; [auto|].
      split; [discriminate|reflexivity]. }
  destruct (GetJobScalingPolicies w _ c) as [resp [err|]]; cbn.
  - do 2 eexists. rewrite <- !app_assoc. split; [reflexivity|].
    split; [repeat constructor|]. split; [auto|].
    split; reflexivity.
  - rewrite scaleJobs_trace. cbn. do 2 eexists. rewrite <- !app_assoc. cbn [app].
    split; [reflexivity|].
    split; [repeat (constructor; [reflexivity|]); apply jobEvents_kinds|].
    split; [congruence|].
    split; [congruence|].
    intros Hoff. cbn. rewrite jobEvents_calls.
    induction (EvaluateJobScaling w _ resp) as [|job jobs IH]; [reflexivity|].
    cbn. unfold eligible at 1. rewrite Hoff, !andb_false_r. exact IH.
Qed.

Lemma job_pass_footprint_witness :
  exists site evs,
    jobScaling Sample.follower (Sample.fresh "eu-west-1" 2)
    = Some (Return site,
            mkMem (Sample.cfg "eu-west-1" 2) (mkScalingState 0 0) ([] ++ evs))
    /\ jobScaleCalls evs = [].
Proof.
  destruct (job_pass_footprint Sample.follower (Sample.fresh "eu-west-1" 2))
    as (site & evs & Hrun & _ & Hstop & _).
  exists site, evs. split; [exact Hrun|].
  apply Hstop. vm_compute in Hrun. injection Hrun as <- _. discriminate.
Defined.

(** ** Region discovery *)

(** X11: the region is looked up at most once in a pass, and only when the
    configuration has none.  A lookup that fails is not fatal: the region
    stays empty and the capacity is evaluated all the same.  A lookup that
    succeeds sets the region of the configuration, and the AWS client of
    that pass is built for it. *)
Theorem region_is_discovered_once_if_missing (w : World) (fuel : nat) (m : Mem)
    (r : Flow unit) (m' : Mem) (evs : list Event) :
  clusterScaling w fuel m = Some (r, m') ->
  trace m' = trace m ++ evs ->
  (occurrences isDescribeRegion evs <= 1)%nat
  /\ (Region (config m) <> ""%string ->
      occurrences isDescribeRegion evs = 0%nat
      /\ Region (config m') = Region (config m))
  /\ (forall region err, In (EDescribeAWSRegion region (Some err)) evs ->
      Region (config m') = ""%string
      /\ occurrences isEvaluate evs = 1%nat)
  /\ (forall region, In (EDescribeAWSRegion region None) evs ->
      Region (config m') = region
      /\ forall sess, In (ENewAWSAsgService sess) evs -> sess = region).
Proof.
  destruct m as [c s t]. intros H Htrace.
  unfold_cluster. unfold_pass. split_run H.
  all: open_run Htrace.
  all: one_direction.
  all: try match goal with
           | Hk : Forall _ ?l |- _ =>
               pose proof (loop_events_none isDescribeRegion l
                             ltac:(intros []; cbn; congruence) Hk);
               pose proof (loop_events_none isEvaluate l
                             ltac:(intros []; cbn; congruence) Hk)
           end.
  all: loop_exit.
  all: cbn [config scalingState trace] in *.
  all: repeat match goal with
              | Hx : config ?m = _ |- _ => rewrite Hx in *; clear Hx
              end.
  all: repeat match goal with
              | Hx : (Region _ =? "")%string = true |- _ => apply String.eqb_eq in Hx
              end.
  all: split; [count_events; lia|].
  all: split; [intros Hne; first [congruence | split; [count_events; lia|reflexivity]]|].
  all: split; [intros region err Hin|intros region Hin].
  all: split_in Hin; try not_in_loop Hin.
  all: inversion Hin; subst; clear Hin.
  all: split.
  all: try solve [reflexivity | cbn; congruence | count_events; lia].
  all: intros sess Hs; split_in Hs; try not_in_loop Hs.
  all: inversion Hs; subst; reflexivity.
Qed.

Lemma region_is_discovered_once_if_missing_witness :
  Region (Sample.cfg "eu-west-1" 2) = "eu-west-1"%string
  /\ forall sess, In (ENewAWSAsgService sess) Sample.discovered ->
     sess = "eu-west-1"%string.
Proof.
  exact (proj2 (proj2 (proj2
           (region_is_discovered_once_if_missing Sample.discovering 0
              (Sample.fresh "" 2) (Return EndOfPass)
              (mkMem (Sample.cfg "eu-west-1" 2) (mkScalingState 0 0)
                 Sample.discovered)
              Sample.discovered ltac:(vm_compute; reflexivity) eq_refl)))
           "eu-west-1"%string ltac:(cbn; tauto)).
Defined.

(** ** A turn without a node *)

(** X12: a turn of the retry loop in which [GetMostRecentInstance] fails
    costs one failure and nothing else: the count goes up by one and the loop
    goes on; no health check is made, nothing is counted in
    [cluster.scale_out_failed], no instance is terminated or detached, and
    the configuration and [LastScalingEvent] stay as they were. *)
Theorem unidentified_node_costs_one_failure (w : World) (asgSess : Session)
    (m : Mem) (r : Flow unit) (m' : Mem) (evs : list Event) :
  retryAttempt w asgSess m = Some (r, m') ->
  trace m' = trace m ++ evs ->
  forall asg region node err,
    In (EGetMostRecentInstance asg region node (Some err)) evs ->
    r = Normal tt
    /\ failures m' = incr (failures m)
    /\ config m' = config m
    /\ lastEvent m' = lastEvent m
    /\ filter mutating evs = []
    /\ attempts evs = 0%nat
    /\ occurrences isFailedCounter evs = 0%nat.
Proof.
  destruct m as [c s t]. intros H Htrace.
  unfold retryAttempt, disableClusterScaling in H. unfold_pass. split_run H.
  all: cbn [trace] in Htrace; rewrite <- ?app_assoc in Htrace; cbn [app] in Htrace;
       apply app_inv_head in Htrace; subst evs.
  all: intros asg0 region node err Hin; split_in Hin.
  all: inversion Hin; subst; clear Hin.
  all: repeat split; reflexivity.
Qed.

Lemma unidentified_node_costs_one_failure_witness :
  filter mutating Sample.lookedUp = [] /\ attempts Sample.lookedUp = 0%nat.
Proof.
  destruct (unidentified_node_costs_one_failure Sample.unidentified
              "eu-west-1"%string (Sample.fresh "eu-west-1" 1) (Normal tt)
              (mkMem (Sample.cfg "eu-west-1" 1) (mkScalingState 1 0) Sample.lookedUp)
              Sample.lookedUp ltac:(vm_compute; reflexivity) eq_refl
              "workers"%string "eu-west-1"%string ""%string "no instance"%string
              ltac:(cbn; tauto))
    as (_ & _ & _ & _ & Hm & Ha & _).
  split; assumption.
Defined.

(** ** A loop that does not end *)

Lemma wrap_range (z : Z) : int_min <= wrap z <= int_max.
Proof.
  unfold wrap, int_min, int_max.
  pose proof (Z.mod_pos_bound (z + 2 ^ 63) (2 ^ 64) ltac:(lia)). lia.
Qed.

(** X13: with the largest [int] as retry threshold the loop condition
    [NodeFailureCount <= RetryThreshold] cannot fail, so while no new
    instance can be identified the retry loop never ends: however many turns
    it is given, it has not returned. *)
Theorem largest_threshold_never_gives_up (w : World) (asgSess : Session) :
  (forall h a r, snd (GetMostRecentInstance w h a r) <> None) ->
  forall fuel m,
    threshold m = int_max ->
    failures m <= int_max ->
    retryLoop w fuel asgSess m = None.
Proof.
  intros Hnone. induction fuel as [|fuel IH]; intros [c s t] HT Hc;
    unfold threshold, failures in *; cbn [config scalingState] in *.
  - cbn. rewrite HT. now rewrite (proj2 (Z.leb_le _ _) Hc).
  - cbn [retryLoop]. cbn [config scalingState]. rewrite HT.
    rewrite (proj2 (Z.leb_le _ _) Hc).
    unfold retryAttempt. unfold_pass. cbn [config scalingState trace].
    destruct (0 <? NodeFailureCount s); cbv beta iota; cbn [config scalingState trace].
    all: match goal with
         | |- context [GetMostRecentInstance ?w0 ?h ?a ?r] =>
             pose proof (Hnone h a r) as Hn;
             destruct (GetMostRecentInstance w0 h a r) as [node [err|]];
             [|now elim Hn]
         end.
    all: cbv beta iota; cbn [config scalingState trace fst snd].
    all: apply IH; cbn; [exact HT | apply wrap_range].
Qed.

Lemma largest_threshold_never_gives_up_witness :
  retryLoop Sample.unidentified 5 "eu-west-1"%string
    (Sample.fresh "eu-west-1" int_max)
  = None.
Proof.
  apply (largest_threshold_never_gives_up Sample.unidentified "eu-west-1"%string).
  - intros h a r. discriminate.
  - reflexivity.
  - unfold int_max. cbn. lia.
Defined.

(** ** The runner over its ticks *)

(** One cluster pass, as a tick sees it. *)
Lemma clusterScaling_in_tick (w : World) (fuel : nat) (m : Mem)
    (r : Flow unit) (m' : Mem) :
  clusterScaling w fuel m = Some (r, m') ->
  exists evs,
    trace m' = trace m ++ evs
    /\ dones evs = 1%nat
    /\ (enabled m = false ->
        enabled m' = false /\ scalingState m' = scalingState m
        /\ filter mutating evs = []).
Proof.
  destruct m as [c s t]. intros H. unfold enabled. cbn [config].
  unfold_cluster. unfold_pass. split_run H.
  all: try match goal with
           | Hx : retryLoop _ _ _ _ = Some _ |- _ =>
               apply retryLoop_post in Hx;
               destruct Hx as (loopEvs & Hloop & _ & Hexit);
               cbn [trace config scalingState] in Hloop
           end.
  all: loop_exit.
  all: eexists; (split; [cbn [trace]; try rewrite Hloop;
                         rewrite <- ?app_assoc; cbn [app]; reflexivity|]).
  all: (split; [unfold dones in *; cbn; rewrite ?filter_app, ?List.length_app; cbn; lia|]).
  all: intros Hoff; cbn in *; first [congruence | repeat split; first [reflexivity|assumption]].
Qed.

Lemma jobScaling_in_tick (w : World) (m : Mem) (r : Flow unit) (m' : Mem) :
  jobScaling w m = Some (r, m') ->
  exists evs,
    m' = mkMem (config m) (scalingState m) (trace m ++ evs)
    /\ Forall (fun e => jobEvent e = true) evs.
Proof.
  destruct m as [c s t]. unfold jobScaling. unfold_pass. cbn.
  destruct (LeaderCheck w t); cbn.
  2:{ intros H; inversion H; subst. eexists. rewrite <- app_assoc.
      split; [reflexivity|repeat constructor]. }
  destruct (GetJobScalingPolicies w _ c) as [resp [err|]]; cbn.
  - intros H; inversion H; subst. eexists. rewrite <- !app_assoc.
    split; [reflexivity|repeat constructor].
  - rewrite scaleJobs_trace. cbn. intros H; inversion H; subst.
    eexists. rewrite <- !app_assoc. cbn [app]. split; [reflexivity|].
    repeat (constructor; [reflexivity|]). apply jobEvents_kinds.
Qed.

Lemma job_events_no_done (evs : list Event) :
  Forall (fun e => jobEvent e = true) evs -> dones evs = 0%nat.
Proof.
  unfold dones. induction 1 as [|e evs He _ IH]; [reflexivity|].
  cbn. destruct e; try discriminate He; exact IH.
Qed.

Lemma job_events_mutate_jobs (evs : list Event) :
  Forall (fun e => jobEvent e = true) evs ->
  Forall (fun e => mutating e = true -> isJobScale e = true) evs.
Proof.
  apply Forall_impl. intros e He Hm. destruct e; try discriminate; reflexivity.
Qed.

Lemma tick_summary (w : World) (fuel : nat) (m m' : Mem) :
  tick w fuel m = Some m' ->
  exists evs,
    trace m' = trace m ++ evs
    /\ dones evs = 1%nat
    /\ (enabled m = false ->
        enabled m' = false /\ scalingState m' = scalingState m
        /\ Forall (fun e => mutating e = true -> isJobScale e = true) evs).
Proof.
  unfold tick, pass. intros H.
  destruct (clusterScaling w fuel m) as [[r m1]|] eqn:Hc; [|discriminate].
  destruct (jobScaling w m1) as [[r' m2]|] eqn:Hj; [|discriminate].
  inversion H; subst; clear H.
  destruct (clusterScaling_in_tick w fuel m r m1 Hc) as (evs1 & Ht1 & Hd1 & Hoff1).
  destruct (jobScaling_in_tick w m1 r' m' Hj) as (evs2 & -> & Hk).
  exists (evs1 ++ evs2). cbn [trace]. split; [rewrite Ht1; now rewrite app_assoc|].
  split; [rewrite dones_app, Hd1, (job_events_no_done evs2 Hk); reflexivity|].
  intros Hoff. destruct (Hoff1 Hoff) as (He & Hs & Hm).
  unfold enabled in *. cbn [config scalingState]. repeat (split; [assumption|]).
  apply Forall_app. split; [|exact (job_events_mutate_jobs evs2 Hk)].
  apply Forall_forall. intros e He' Hmut.
  assert (Hin : In e (filter mutating evs1)) by (apply filter_In; auto).
  rewrite Hm in Hin. contradiction.
Qed.

(** X14: over [n] ticks of the runner that all return, the cluster passes
    signal [done] [n] times, one for each tick, and the job passes never.
    Once cluster scaling is disabled it stays disabled: the flag is false
    after every later tick, the scaling state does not change any more, and
    the only calls that still change a collaborator are the [JobScale] calls
    of the job passes. *)
Theorem runner_ticks (w : World) (fuel : nat) (n : nat) :
  forall m m',
    ticks w fuel n m = Some m' ->
    exists evs,
      trace m' = trace m ++ evs
      /\ dones evs = n
      /\ (enabled m = false ->
          enabled m' = false /\ scalingState m' = scalingState m
          /\ Forall (fun e => mutating e = true -> isJobScale e = true) evs).
Proof.
  induction n as [|n IH]; intros m m' H; cbn in H.
  - inversion H; subst. exists []. rewrite app_nil_r. repeat split; auto.
  - destruct (tick w fuel m) as [m1|] eqn:Ht; [|discriminate].
    destruct (tick_summary w fuel m m1 Ht) as (evs1 & Ht1 & Hd1 & Hoff1).
    destruct (IH m1 m' H) as (evs2 & Ht2 & Hd2 & Hoff2).
    exists (evs1 ++ evs2). split; [rewrite Ht2, Ht1; now rewrite app_assoc|].
    split; [rewrite dones_app, Hd1, Hd2; reflexivity|].
    intros Hoff. destruct (Hoff1 Hoff) as (He1 & Hs1 & Hm1).
    destruct (Hoff2 He1) as (He2 & Hs2 & Hm2).
    split; [exact He2|]. split; [congruence|].
    apply Forall_app. split; assumption.
Qed.

Lemma runner_ticks_witness :
  exists evs,
    Sample.twoTicks = [] ++ evs /\ dones evs = 2%nat.
Proof.
  destruct (runner_ticks Sample.awakening 1 2 (Sample.fresh "eu-west-1" 2)
              (mkMem (Sample.cfg "eu-west-1" 2) (mkScalingState 0 100)
                 Sample.twoTicks)
              ltac:(vm_compute; reflexivity))
    as (evs & Htrace & Hd & _).
  exists evs. split; assumption.
Defined.
